(** * mirdata: the TONAS and Da-TACOS loaders

    A shallow embedding of [mirdata/datasets/tonas.py] and
    [mirdata/datasets/da_tacos.py], with the properties of their parsers,
    annotation records and metadata indexes.

    Conventions of the embedding:
    - a Python [float] is read as a real number ([R]); [2 ** x] is
      [Rpower 2 x]. Infinities and NaN have no counterpart;
    - a Python [str] is a [string], a [dict] with string keys is a
      [gmap string _];
    - an exception is a value of [exn]; code that can raise returns a
      [result]. *)

From Stdlib Require Import Ascii String ZArith QArith Reals Qreals Lra Lia.
From stdpp Require Import base option list strings gmap.

Local Open Scope list_scope.
Local Open Scope stdpp_scope.

(** ** The Python runtime the loaders rely on *)

Module Py.

(** The exceptions the loaders can raise. [ValidationError] is the name the
    specification gives to a failed check of an annotation record;
    [FileNotFoundError] is what it calls NotFoundError. *)
Inductive exn : Set :=
| ValidationError
| FileNotFoundError
| IndexError
| KeyError
| ValueError
| TypeError
| AttributeError
| StopIteration
| CsvError.

Inductive result (A : Type) : Type :=
| Ok (a : A)
| Raise (e : exn).
Arguments Ok {A} a.
Arguments Raise {A} e.

#[global] Instance result_ret : MRet result := fun _ a => Ok a.
#[global] Instance result_bind : MBind result := fun _ _ k m =>
  match m with
  | Ok a => k a
  | Raise e => Raise e
  end.

#[global] Instance result_fmap : FMap result := fun _ _ f m =>
  match m with
  | Ok a => Ok (f a)
  | Raise e => Raise e
  end.

Definition of_option {A} (e : exn) (o : option A) : result A :=
  match o with
  | Some a => Ok a
  | None => Raise e
  end.

End Py.

Export Py.

(** [seq[i]] on a Python list. *)
Definition getitem {A} (l : list A) (i : nat) : result A :=
  of_option IndexError (l !! i).

(** A [for] loop over a list: [body] updates the loop state or raises. *)
Fixpoint for_each {S A} (body : S -> A -> result S) (s : S) (l : list A)
  : result S :=
  match l with
  | [] => Ok s
  | a :: l' => s' ← body s a; for_each body s' l'
  end.

(** An iterator whose [next] can raise is the list of the outcomes of its
    successive [next] calls; nothing follows an outcome that raised. *)
Definition iterator (A : Type) : Type := list (result A).


(** [for a in it: body] *)
Fixpoint for_iter {S A} (body : S -> A -> result S) (s : S) (it : iterator A)
  : result S :=
  match it with
  | [] => Ok s
  | Ok a :: it' => s' ← body s a; for_iter body s' it'
  | Raise e :: _ => Raise e
  end.

(** *** [str] *)

Module str.

Definition NUL : ascii := "000"%char.
Definition TAB : ascii := "009"%char.
Definition LF : ascii := "010"%char.
Definition CR : ascii := "013"%char.
Definition QUOTE : ascii := "034"%char.

(** [s.startswith(p)] *)
Fixpoint startswith (p s : string) : bool :=
  match p, s with
  | "", _ => true
  | String _ _, "" => false
  | String a p', String b s' => Ascii.eqb a b && startswith p' s'
  end.

(** [s.endswith(p)] *)
Definition endswith (p s : string) : bool :=
  startswith (String.rev p) (String.rev s).

(** [s.replace(old, new)] for a non-empty [old] (both call sites pass a
    literal): scanning from the left, every occurrence of [old] that does
    not overlap an earlier one becomes [new]. [skip] counts the characters
    of the current occurrence still to pass over. *)
Fixpoint replace_go (old new : string) (skip : nat) (s : string) : string :=
  match s with
  | "" => ""
  | String c s' =>
      match skip with
      | S k => replace_go old new k s'
      | O =>
          if startswith old s
          then new +:+ replace_go old new (String.length old - 1) s'
          else String c (replace_go old new 0 s')
      end
  end.

Definition replace (old new s : string) : string := replace_go old new 0 s.

(** [c in s] for a character [c]. *)
Fixpoint contains_char (c : ascii) (s : string) : bool :=
  match s with
  | "" => false
  | String a s' => Ascii.eqb a c || contains_char c s'
  end.

(** [s.split(sep)] for a separator of one character. *)
Fixpoint split (sep : ascii) (s : string) : list string :=
  match s with
  | "" => [""]
  | String c s' =>
      if Ascii.eqb c sep then "" :: split sep s'
      else match split sep s' with
           | w :: ws => String c w :: ws
           | [] => [String c ""]
           end
  end.




End str.

(** *** [float(s)] on a string

    The decimal literals: optional sign, digits with an optional fraction, an
    optional exponent, surrounded by optional whitespace; an underscore may
    stand between two digits. The literal is read as the rational it
    denotes. The spellings of infinity and NaN are not covered (they raise
    here). *)

Module float_literal.







End float_literal.


(** *** [csv.reader]

    The reader of Python's [csv] module under its default dialect (the double
    quote as quote character, doubled inside a quoted field, no escape
    character, not strict) with a
    delimiter of the caller's choice: the state machine of [_csv.c], fed one
    line at a time. The two states that only an escape character reaches are
    left out. A NUL in a line is refused (the interpreters before 3.11). *)

Module csv.

Inductive state : Set :=
| START_RECORD
| START_FIELD
| IN_FIELD
| IN_QUOTED_FIELD
| QUOTE_IN_QUOTED_FIELD
| EAT_CRNL.

Record parser : Set := Parser {
  st : state;
  field : string;
  fields : list string
}.

Definition parse_reset : parser := Parser START_RECORD "" [].

Definition goto (s : state) (p : parser) : parser :=
  Parser s (field p) (fields p).

Definition parse_add_char (c : ascii) (p : parser) : parser :=
  Parser (st p) (field p +:+ String c "") (fields p).

Definition parse_save_field (p : parser) : parser :=
  Parser (st p) "" (fields p ++ [field p]).

Definition is_newline (c : ascii) : bool :=
  Ascii.eqb c str.LF || Ascii.eqb c str.CR.

(** The end of a field: after a newline character the rest of the line is
    skipped, at the end of the line the record is complete. *)
Definition end_of_field (c : option ascii) (p : parser) : parser :=
  goto (match c with None => START_RECORD | Some _ => EAT_CRNL end)
       (parse_save_field p).

(** One step; [None] is the end-of-line mark the reader feeds after the last
    character of each line. *)
Definition parse_process_char (delimiter : ascii) (p : parser)
    (c : option ascii) : result parser :=
  let start_field :=
    match c with
    | None => Ok (end_of_field c p)
    | Some ch =>
        if is_newline ch then Ok (end_of_field c p)
        else if Ascii.eqb ch str.QUOTE then Ok (goto IN_QUOTED_FIELD p)
        else if Ascii.eqb ch delimiter then Ok (goto START_FIELD (parse_save_field p))
        else Ok (goto IN_FIELD (parse_add_char ch p))
    end in
  match st p with
  | START_RECORD =>
      match c with
      | None => Ok p
      | Some ch => if is_newline ch then Ok (goto EAT_CRNL p) else start_field
      end
  | START_FIELD => start_field
  | IN_FIELD =>
      match c with
      | None => Ok (end_of_field c p)
      | Some ch =>
          if is_newline ch then Ok (end_of_field c p)
          else if Ascii.eqb ch delimiter then Ok (goto START_FIELD (parse_save_field p))
          else Ok (parse_add_char ch p)
      end
  | IN_QUOTED_FIELD =>
      match c with
      | None => Ok p
      | Some ch =>
          if Ascii.eqb ch str.QUOTE then Ok (goto QUOTE_IN_QUOTED_FIELD p)
          else Ok (parse_add_char ch p)
      end
  | QUOTE_IN_QUOTED_FIELD =>
      match c with
      | None => Ok (end_of_field c p)
      | Some ch =>
          if Ascii.eqb ch str.QUOTE then Ok (goto IN_QUOTED_FIELD (parse_add_char ch p))
          else if Ascii.eqb ch delimiter then Ok (goto START_FIELD (parse_save_field p))
          else if is_newline ch then Ok (end_of_field c p)
          else Ok (goto IN_FIELD (parse_add_char ch p))
      end
  | EAT_CRNL =>
      match c with
      | None => Ok (goto START_RECORD p)
      | Some ch => if is_newline ch then Ok p else Raise CsvError
      end
  end.

Fixpoint process_line (delimiter : ascii) (p : parser) (line : string)
  : result parser :=
  match line with
  | "" => parse_process_char delimiter p None
  | String c line' =>
      if Ascii.eqb c str.NUL then Raise CsvError
      else p' ← parse_process_char delimiter p (Some c);
           process_line delimiter p' line'
  end.

(** The records the reader yields from the lines it is given. A record ends
    with the line on which the parser is back in [START_RECORD]; when the
    lines run out inside a quoted field what was read is the last record. *)
Fixpoint reader_go (delimiter : ascii) (p : parser) (lines : list string)
  : iterator (list string) :=
  match lines with
  | [] =>
      match st p, field p with
      | IN_QUOTED_FIELD, _ | _, String _ _ => [Ok (fields (parse_save_field p))]
      | _, "" => []
      end
  | line :: lines' =>
      match process_line delimiter p line with
      | Raise e => [Raise e]
      | Ok p' =>
          match st p' with
          | START_RECORD => Ok (fields p') :: reader_go delimiter parse_reset lines'
          | _ => reader_go delimiter p' lines'
          end
      end
  end.

Definition reader (lines : list string) (delimiter : ascii)
  : iterator (list string) :=
  reader_go delimiter parse_reset lines.

End csv.

(** *** [os.path] over a file tree

    A file tree maps the paths that exist to what the file holds, seen
    through the decoder its reader applies. *)

Module os_path.

Definition join2 (path b : string) : string :=
  if str.startswith "/" b then b
  else if String.eqb path "" || str.endswith "/" path then path +:+ b
  else path +:+ "/" +:+ b.

(** [os.path.join(a, *p)] *)
Definition join (a : string) (p : list string) : string := foldl join2 a p.

(** [os.path.exists(path)] *)
Definition exists_ {A} (fs : gmap string A) (path : string) : bool :=
  bool_decide (is_Some (fs !! path)).

End os_path.

(** *** [numpy] arrays of floats *)

#[global] Instance Rlt_decision (x y : R) : Decision (x < y)%R := Rlt_dec x y.
#[global] Instance Rle_decision (x y : R) : Decision (x <= y)%R := Rle_dec x y.

Module np.

(** An array of dtype float with at most two axes. *)
Inductive ndarray : Type :=
| Nd0 (x : R)
| Nd1 (xs : list R)
| Nd2 (rows : list (list R)).

(** [np.array(l, dtype="float")] of a list of floats. *)
Definition array (l : list R) : ndarray := Nd1 l.


(** [len(a)] *)
Definition len (a : ndarray) : result nat :=
  match a with
  | Nd0 _ => Raise TypeError
  | Nd1 xs => Ok (length xs)
  | Nd2 rows => Ok (length rows)
  end.

(** [iter(a)]: the items along the first axis. *)
Definition iter (a : ndarray) : result (list ndarray) :=
  match a with
  | Nd0 _ => Raise TypeError
  | Nd1 xs => Ok (Nd0 <$> xs)
  | Nd2 rows => Ok (Nd1 <$> rows)
  end.

(** [a[i]] for an index that is not negative; a scalar cannot be indexed. *)
Definition getitem (a : ndarray) (i : nat) : result ndarray :=
  match a with
  | Nd0 _ => Raise IndexError
  | Nd1 xs => Nd0 <$> of_option IndexError (xs !! i)
  | Nd2 rows => Nd1 <$> of_option IndexError (rows !! i)
  end.

(** [float(a)]: only an array of one element converts. *)
Definition to_float (a : ndarray) : result R :=
  match a with
  | Nd0 x | Nd1 [x] | Nd2 [[x]] => Ok x
  | _ => Raise TypeError
  end.

(** [np.squeeze]: axes of length one are dropped. *)
Definition squeeze (rows : list (list R)) : ndarray :=
  match rows with
  | [[x]] => Nd0 x
  | [row] => Nd1 row
  | _ =>
      if forallb (fun row => length row =? 1) rows then Nd1 (concat rows)
      else Nd2 rows
  end.

(** [np.genfromtxt(fhandle)] with its defaults. The file is given by the
    numbers of its lines, one list per line, a line without fields being one
    that the reader skips. Lines of different widths are refused, and the
    table that was read is squeezed: a single line comes back as an array of
    one axis. *)
Definition genfromtxt (fhandle : list (list R)) : result ndarray :=
  match filter (fun row => row <> []) fhandle with
  | [] => Ok (Nd1 [])
  | row :: rows =>
      if forallb (fun r => length r =? length row) rows
      then Ok (squeeze (row :: rows))
      else Raise ValueError
  end.

End np.

(** The values handed to the constructors of the annotation records. *)
Inductive pyobj : Type :=
| PyNone
| PyArray (a : np.ndarray)
| PyOther (size : nat). (* a sized object that is not an array of floats *)

Definition is_none (o : pyobj) : bool :=
  match o with PyNone => true | _ => false end.

(** *** Decoded JSON

    What [json.load] returns. An object is a [dict]; it is kept as the list
    of its items in the order of the file, which is the order [keys()]
    follows. *)

#[local] Unset Elimination Schemes.
Inductive json : Type :=
| JNull
| JBool (b : bool)
| JNum (q : Q)
| JStr (s : string)
| JArr (l : list json)
| JObj (items : list (string * json)).
#[local] Set Elimination Schemes.

Module dict.

Fixpoint lookup (k : string) (items : list (string * json)) : option json :=
  match items with
  | [] => None
  | (k', v) :: items' => if String.eqb k' k then Some v else lookup k items'
  end.

(** [d.keys()] *)
Definition keys (d : json) : result (list string) :=
  match d with
  | JObj items => Ok (items.*1)
  | _ => Raise AttributeError
  end.

(** [d[k]] for a string [k] *)
Definition getitem (d : json) (k : string) : result json :=
  match d with
  | JObj items => of_option KeyError (lookup k items)
  | _ => Raise TypeError
  end.

(** [d.get(k)]: [None] when the key is missing. *)
Definition get (d : json) (k : string) : result json :=
  match d with
  | JObj items => Ok (default JNull (lookup k items))
  | _ => Raise AttributeError
  end.

End dict.

(** [v == s] for a string literal [s]: only an equal string is equal to a
    string. *)
Definition eq_str (v : json) (s : string) : bool :=
  match v with
  | JStr t => String.eqb t s
  | _ => false
  end.

(** ** mirdata.annotations *)

Module annotations.

(** Modelled from the spec: [annotations.validate_array_like], missing from
    the sources, as called with [np.ndarray] and [float]: the value has to
    be an array of floats. *)
Definition validate_array_like (array_like : pyobj) : result unit :=
  match array_like with
  | PyArray _ => Ok ()
  | PyNone | PyOther _ => Raise ValidationError
  end.

(** Modelled from the spec: the same check for an optional field, which
    may be [None]. *)
Definition validate_optional (array_like : pyobj) : result unit :=
  match array_like with
  | PyNone => Ok ()
  | _ => validate_array_like array_like
  end.

(** Modelled from the spec: the length a member of a group is compared by;
    [None] and a scalar have none. *)
Definition length_of (o : pyobj) : result nat :=
  match o with
  | PyNone => Raise ValidationError
  | PyArray a =>
      match np.len a with Ok n => Ok n | Raise _ => Raise ValidationError end
  | PyOther n => Ok n
  end.

(** Modelled from the spec: [annotations.validate_lengths_equal], missing
    from the sources: the lengths of the members of the group that are not
    [None] have to be all equal. *)
Definition validate_lengths_equal (array_list : list pyobj) : result unit :=
  lens ← mapM length_of (filter (fun o => is_none o = false) array_list);
  match lens with
  | [] => Ok ()
  | n :: ns => if forallb (Nat.eqb n) ns then Ok () else Raise ValidationError
  end.

(** Modelled from the spec: strictly increasing values. *)
Fixpoint strictly_increasing (xs : list R) : bool :=
  match xs with
  | x :: (y :: _) as xs' => bool_decide (x < y)%R && strictly_increasing xs'
  | _ => true
  end.

(** Modelled from the spec: values that are not negative. *)
Definition non_negative (xs : list R) : bool :=
  forallb (fun x => bool_decide (0 <= x)%R) xs.

(** Modelled from the spec: the check of time stamps, missing from the
    sources: strictly increasing and not negative. *)
Definition validate_times (times : pyobj) : result unit :=
  match times with
  | PyArray (np.Nd1 xs) =>
      if non_negative xs && strictly_increasing xs then Ok ()
      else Raise ValidationError
  | _ => Raise ValidationError
  end.

(** Modelled from the spec: a row [start_time, end_time] that does not
    start before 0 and does not end before it starts. *)
Definition valid_interval (row : list R) : bool :=
  match row with
  | [start_time; end_time] =>
      bool_decide (0 <= start_time)%R && bool_decide (start_time <= end_time)%R
  | _ => false
  end.

(** Modelled from the spec: the check of intervals, missing from the
    sources: an array of two axes whose rows are [start_time, end_time], not
    negative, the end not before the start. *)
Definition validate_intervals (intervals : pyobj) : result unit :=
  match intervals with
  | PyArray (np.Nd2 rows) =>
      if forallb valid_interval rows then Ok () else Raise ValidationError
  | _ => Raise ValidationError
  end.

Module F0Data.

Record t : Type := Build {
  times : pyobj;
  frequencies : pyobj;
  confidence : pyobj
}.

(** Modelled from the spec: the constructor of the standard F0 record,
    missing from the sources. *)
Definition __init__ (times frequencies confidence : pyobj) : result t :=
  validate_array_like times;;
  validate_array_like frequencies;;
  validate_optional confidence;;
  validate_lengths_equal [times; frequencies; confidence];;
  validate_times times;;
  Ok (Build times frequencies confidence).

End F0Data.

Module NoteData.

Record t : Type := Build {
  intervals : pyobj;
  notes : pyobj;
  confidence : pyobj
}.

(** Modelled from the spec: the constructor of the standard note record,
    missing from the sources. *)
Definition __init__ (intervals notes confidence : pyobj) : result t :=
  validate_array_like intervals;;
  validate_array_like notes;;
  validate_optional confidence;;
  validate_lengths_equal [intervals; notes; confidence];;
  validate_intervals intervals;;
  Ok (Build intervals notes confidence).

End NoteData.

End annotations.

(** ** mirdata.datasets.tonas *)

Module tonas.

(** [class NoteData(annotations.NoteData)] *)
Module NoteData.

Record t : Type := Build {
  super : annotations.NoteData.t;
  energies : pyobj
}.

Definition intervals (self : t) : pyobj := annotations.NoteData.intervals (super self).
Definition notes (self : t) : pyobj := annotations.NoteData.notes (super self).
Definition confidence (self : t) : pyobj := annotations.NoteData.confidence (super self).

Definition __init__ (intervals notes energies confidence : pyobj) : result t :=
  super ← annotations.NoteData.__init__ intervals notes confidence;
  annotations.validate_array_like energies;;
  annotations.validate_lengths_equal [intervals; notes; energies; confidence];;
  Ok (Build super energies).

End NoteData.

(** [class F0Data(annotations.F0Data)] *)
Module F0Data.

Record t : Type := Build {
  super : annotations.F0Data.t;
  automatic_frequencies : pyobj;
  energies : pyobj
}.

Definition times (self : t) : pyobj := annotations.F0Data.times (super self).
Definition frequencies (self : t) : pyobj := annotations.F0Data.frequencies (super self).
Definition confidence (self : t) : pyobj := annotations.F0Data.confidence (super self).

Definition __init__ (times automatic_frequencies frequencies energies confidence : pyobj)
  : result t :=
  super ← annotations.F0Data.__init__ times frequencies confidence;
  annotations.validate_array_like automatic_frequencies;;
  annotations.validate_array_like energies;;
  annotations.validate_lengths_equal
    [times; automatic_frequencies; frequencies; energies; confidence];;
  Ok (Build super automatic_frequencies energies).

End F0Data.

(** The lists [load_f0] fills while it reads. *)
Record f0_lists : Type := F0Lists {
  f0_times : list R;
  f0_freqs : list R;
  f0_freqs_corr : list R;
  f0_energies : list R;
  f0_confidence : list R
}.

(** The body of the loop of [load_f0]. *)
Definition load_f0_line (acc : f0_lists) (line : np.ndarray) : result f0_lists :=
  t ← np.getitem line 0 ≫= np.to_float;
  e ← np.getitem line 1 ≫= np.to_float;
  f ← np.getitem line 2 ≫= np.to_float;
  fc ← np.getitem line 3 ≫= np.to_float;
  c ← np.getitem line 3 ≫= np.to_float;
  Ok (F0Lists (f0_times acc ++ [t]) (f0_freqs acc ++ [f])
        (f0_freqs_corr acc ++ [fc]) (f0_energies acc ++ [e])
        (f0_confidence acc ++ [if bool_decide (0 < c)%R then 1%R else 0%R])).

(** [load_f0(fhandle)], the function under the decorator that opens the
    file. *)
Definition load_f0 (fhandle : list (list R)) : result F0Data.t :=
  reader ← np.genfromtxt fhandle;
  lines ← np.iter reader;
  acc ← for_each load_f0_line (F0Lists [] [] [] [] []) lines;
  F0Data.__init__
    (PyArray (np.array (f0_times acc)))
    (PyArray (np.array (f0_freqs acc)))
    (PyArray (np.array (f0_freqs_corr acc)))
    (PyArray (np.array (f0_energies acc)))
    (PyArray (np.array (f0_confidence acc))).







(** [class Track]: the properties that read the entry of the track in the
    metadata of the dataset, a [dict] of strings which [core.Track]
    resolves; [dict.get] gives [None] for a key that is missing. *)
Module Track.

Definition style (_track_metadata : gmap string string) : option string :=
  _track_metadata !! "style".

Definition singer (_track_metadata : gmap string string) : option string :=
  _track_metadata !! "singer".

Definition title (_track_metadata : gmap string string) : option string :=
  _track_metadata !! "title".

End Track.

Module Dataset.

(** The body of the loop of [_metadata]. *)
Definition _metadata_line (metadata : gmap string (gmap string string))
    (line : list string) : result (gmap string (gmap string string)) :=
  match line with
  | [] => Ok metadata
  | _ :: _ =>
      index ← str.replace ".wav" "" <$> getitem line 0;
      style ← getitem line 1;
      title ← getitem line 2;
      singer ← getitem line 3;
      Ok (<[index :=
              <["style" := style]> (<["title" := title]> {["singer" := singer]})]>
            metadata)
  end.

(** [Dataset._metadata], over the text files of the tree, each the list of
    its lines. *)
Definition _metadata (fs : gmap string (list string)) (data_home : string)
  : result (gmap string (gmap string string)) :=
  let metadata_path := os_path.join data_home ["TONAS-Metadata.txt"] in
  if negb (os_path.exists_ fs metadata_path) then Raise FileNotFoundError
  else
    f ← of_option FileNotFoundError (fs !! metadata_path);
    let reader :=
      csv.reader (str.replace (String str.NUL "") "" <$> f) str.TAB in
    for_iter _metadata_line ∅ reader.

End Dataset.

End tonas.

(** ** mirdata.datasets.da_tacos *)

Module da_tacos.

Module Track.

Record t : Type := Build {
  track_id : string;
  _data_home : string;
  cens_path : option string;
  crema_path : option string;
  hpcp_path : option string;
  key_path : option string;
  madmom_path : option string;
  mfcc_path : option string;
  tags_path : option string;
  subset : string;
  work_id : string;
  label : string;
  performance_id : string
}.

Section init.

(** The path-resolution service of [core.Track], outside these sources:
    the path a track has under a key of the index, if any. *)
Variable get_path : string -> string -> option string.

(** [Track.__init__], after the constructor of [core.Track]. *)
Definition __init__ (track_id data_home : string) : result t :=
  let cens_path := get_path track_id "cens" in
  let crema_path := get_path track_id "crema" in
  let hpcp_path := get_path track_id "hpcp" in
  let key_path := get_path track_id "key" in
  let madmom_path := get_path track_id "madmom" in
  let mfcc_path := get_path track_id "mfcc" in
  let tags_path := get_path track_id "tags" in
  subset ← getitem (str.split "#" track_id) 0;
  work_id ← getitem (str.split "#" track_id) 1;
  let label := work_id in
  performance_id ← getitem (str.split "#" track_id) 2;
  Ok (Build track_id data_home cens_path crema_path hpcp_path key_path
        madmom_path mfcc_path tags_path subset work_id label performance_id).

End init.

(** The properties read [self._track_metadata], the entry of the track in
    the metadata of the dataset, which [core.Track] resolves. *)

Definition work_title (_track_metadata : json) : result json :=
  dict.get _track_metadata "work_title".

Definition work_artist (_track_metadata : json) : result json :=
  dict.get _track_metadata "work_artist".

Definition performance_title (_track_metadata : json) : result json :=
  dict.get _track_metadata "perf_title".

Definition performance_artist (_track_metadata : json) : result json :=
  dict.get _track_metadata "perf_artist".

Definition release_year (_track_metadata : json) : result json :=
  dict.get _track_metadata "release_year".

Definition is_instrumental (_track_metadata : json) : result bool :=
  v ← dict.get _track_metadata "instrumental"; Ok (eq_str v "Yes").

Definition performance_artist_mbid (_track_metadata : json) : result json :=
  dict.get _track_metadata "perf_artist_mbid".

Definition mb_performances (_track_metadata : json) : result json :=
  dict.get _track_metadata "mb_performances".

End Track.

(** The feature files. A file holds a mapping from feature names to values;
    the values are opaque to the loaders. *)
Section loaders.

Context {V : Type}.

(** The feature files of the tree, each by the mapping it holds. *)
Variable fs : gmap string (gmap string V).

(** [dd.io.load(path)] *)
Definition dd_io_load (path : string) : result (gmap string V) :=
  of_option FileNotFoundError (fs !! path).

(** [blob[key]] *)
Definition blob_getitem (blob : gmap string V) (key : string) : result V :=
  of_option KeyError (blob !! key).

(** The loaders, as functions of [fhandle.name]. *)

Definition load_cens (fhandle_name : string) : result V :=
  blob ← dd_io_load fhandle_name; blob_getitem blob "chroma_cens".

Definition load_crema (fhandle_name : string) : result V :=
  blob ← dd_io_load fhandle_name; blob_getitem blob "crema".

Definition load_hpcp (fhandle_name : string) : result V :=
  blob ← dd_io_load fhandle_name; blob_getitem blob "hpcp".

Definition load_key (fhandle_name : string) : result V :=
  blob ← dd_io_load fhandle_name; blob_getitem blob "key_extractor".

Definition load_madmom (fhandle_name : string) : result V :=
  blob ← dd_io_load fhandle_name; blob_getitem blob "madmom_features".

Definition load_mfcc (fhandle_name : string) : result V :=
  blob ← dd_io_load fhandle_name; blob_getitem blob "mfcc_htk".

Definition load_tags (fhandle_name : string) : result V :=
  blob ← dd_io_load fhandle_name; blob_getitem blob "tags".

End loaders.

Module Dataset.

Definition subsets : list string := ["benchmark"; "coveranalysis"].

Definition path_of_subset (data_home subset : string) : string :=
  os_path.join data_home
    ["da-tacos_metadata"; "da-tacos_" +:+ subset +:+ "_subset_metadata.json"].

Section metadata.

(** The JSON files of the tree, each by the outcome of decoding it. *)
Variable fs : gmap string (result json).

(** [json.load(open(path))] *)
Definition json_load (path : string) : result json :=
  match fs !! path with
  | None => Raise FileNotFoundError
  | Some r => r
  end.

(** The first loop of [_metadata]: every file has to be there. *)
Definition check_subset (data_home : string) (metadata_paths : list string)
    (subset : string) : result (list string) :=
  let path_subset := path_of_subset data_home subset in
  if negb (os_path.exists_ fs path_subset) then Raise FileNotFoundError
  else Ok (metadata_paths ++ [path_subset]).

(** The innermost loop: one entry per performance of a work. *)
Definition add_performance (subset : string) (meta : json) (work_id : string)
    (metadata_index : gmap string json) (performance_id : string)
  : result (gmap string json) :=
  let track_id := subset +:+ "#" +:+ work_id +:+ "#" +:+ performance_id in
  work ← dict.getitem meta work_id;
  entry ← dict.getitem work performance_id;
  Ok (<[track_id := entry]> metadata_index).

Definition add_work (subset : string) (meta : json)
    (metadata_index : gmap string json) (work_id : string)
  : result (gmap string json) :=
  performances ← dict.getitem meta work_id ≫= dict.keys;
  for_each (add_performance subset meta work_id) metadata_index performances.

(** The second loop: the entries of one subset. *)
Definition add_subset (metadata_index : gmap string json)
    (item : string * string) : result (gmap string json) :=
  let '(subset, path_subset) := item in
  meta ← json_load path_subset;
  works ← dict.keys meta;
  for_each (add_work subset meta) metadata_index works.

(** [Dataset._metadata] *)
Definition _metadata (data_home : string) : result (gmap string json) :=
  metadata_paths ← for_each (check_subset data_home) [] subsets;
  for_each add_subset ∅ (zip subsets metadata_paths).

End metadata.

End Dataset.

End da_tacos.

(** ** Notions the statements use *)

(** A one-axis array of floats as a constructor argument. *)
Definition float_array (xs : list R) : pyobj := PyArray (np.array xs).

(** The members of a group that have a length all have the same one;
    [None] has none. *)
Definition lengths_agree (group : list pyobj) : Prop :=
  forall x y n m, x ∈ group -> y ∈ group ->
    annotations.length_of x = Ok n -> annotations.length_of y = Ok m -> n = m.

(** Two members of a group have different lengths. *)
Definition lengths_differ (group : list pyobj) : Prop :=
  exists x y n m, x ∈ group /\ y ∈ group /\
    annotations.length_of x = Ok n /\ annotations.length_of y = Ok m /\ n <> m.

(** The rows of an array of intervals. *)
Definition interval_rows (intervals : pyobj) : option (list (list R)) :=
  match intervals with
  | PyArray (np.Nd2 rows) => Some rows
  | _ => None
  end.

(** Every row is [start_time, end_time] with [0 <= start_time <= end_time]. *)
Definition intervals_well_formed (intervals : pyobj) : Prop :=
  exists rows, interval_rows intervals = Some rows /\
    Forall (fun row => exists start_time end_time,
              row = [start_time; end_time] /\
              (0 <= start_time)%R /\ (start_time <= end_time)%R) rows.

(** An optional array as a constructor argument. *)
Definition optional_array (o : option (list R)) : pyobj :=
  from_option float_array PyNone o.

(** A computation that can only fail with [ValidationError]. *)
Definition validation (A : Type) (m : result A) : Prop :=
  forall e, m = Raise e -> e = ValidationError.

(** A frame of an f0 file: the four numbers of a line. *)
Record f0_frame : Type := F0Frame {
  time : R;
  energy : R;
  automatic_frequency : R;
  corrected_frequency : R
}.

(** The f0 file that holds the given frames, one per line. *)
Definition f0_file (frames : list f0_frame) : list (list R) :=
  (fun r => [time r; energy r; automatic_frequency r; corrected_frequency r])
    <$> frames.

(** The confidence a frame is given: 1 when the corrected frequency is
    positive, 0 otherwise. *)
Definition frame_confidence (r : f0_frame) : R :=
  if bool_decide (0 < corrected_frequency r)%R then 1%R else 0%R.





(** [sub in s] *)
Fixpoint contains (sub s : string) : bool :=
  str.startswith sub s ||
  match s with
  | "" => false
  | String _ s' => contains sub s'
  end.








(** The form of a Da-TACOS track identifier: subset # work # performance. *)
Definition track_id_form (k : string) : Prop :=
  exists subset work_id performance_id,
    subset ∈ da_tacos.Dataset.subsets /\
    k = subset +:+ "#" +:+ work_id +:+ "#" +:+ performance_id.

(** ** mirdata.datasets.da_tacos: the views of the index *)

Module da_tacos_index.

Section index.

Context {V : Type}.

(** [self._index["tracks"]], which [core.Dataset] reads from disk. *)
Variable tracks : gmap string V.

(** [Dataset.filter_index(search_key)] *)
Definition filter_index (search_key : string) : gmap string V :=
  filter (fun kv => contains search_key kv.1 = true) tracks.

(** [Dataset.benchmark_tracks()] *)
Definition benchmark_tracks : gmap string V := filter_index "benchmark#".

(** [Dataset.coveranalysis_tracks()] *)
Definition coveranalysis_tracks : gmap string V := filter_index "coveranalysis#".

End index.

End da_tacos_index.

(** ** Further notions the statements use *)

(** The number of occurrences of a character. *)
Fixpoint count_char (c : ascii) (s : string) : nat :=
  match s with
  | "" => 0
  | String a s' => (if Ascii.eqb a c then 1 else 0) + count_char c s'
  end.



(** ** Notions of the further properties *)


(** The lists of [load_f0] have one length, and the confidence is 1 where
    the corrected frequency is positive and 0 elsewhere. *)
Definition f0_lists_consistent (acc : tonas.f0_lists) : Prop :=
  length (tonas.f0_freqs acc) = length (tonas.f0_times acc) /\
  length (tonas.f0_freqs_corr acc) = length (tonas.f0_times acc) /\
  length (tonas.f0_energies acc) = length (tonas.f0_times acc) /\
  Forall2 (fun f c => c = if bool_decide (0 < f)%R then 1%R else 0%R)
    (tonas.f0_freqs_corr acc) (tonas.f0_confidence acc).



(** The entry of a performance of a work in the metadata file of a subset. *)
Definition entry_of (fs : gmap string (result json)) (data_home : string)
    (subset work_id performance_id : string) : result json :=
  meta ← da_tacos.Dataset.json_load fs
            (da_tacos.Dataset.path_of_subset data_home subset);
  work ← dict.getitem meta work_id;
  dict.getitem work performance_id.

(** A decoded metadata file as the loader expects it: an object whose
    values are objects. *)
Definition works_of_performances (meta : json) : Prop :=
  exists works, meta = JObj works /\
    Forall (fun kv => exists performances, kv.2 = JObj performances) works.

(** The outcomes of a loader that reads one key of a feature file. *)
Definition reads_key {V : Type}
    (load : gmap string (gmap string V) -> string -> result V) (key : string) : Prop :=
  forall fs path,
    (forall v, load fs path = Ok v <->
       exists blob, fs !! path = Some blob /\ blob !! key = Some v) /\
    (load fs path = Raise KeyError <->
       exists blob, fs !! path = Some blob /\ blob !! key = None) /\
    (load fs path = Raise FileNotFoundError <-> fs !! path = None).


(** * Properties *)

(** ** Da-TACOS: the instrumental flag *)

Lemma eq_str_true v s : eq_str v s = true <-> v = JStr s.
Proof.
  destruct v; simpl; try (split; [discriminate | discriminate]).
  rewrite String.eqb_eq. split; [intros -> | intros [= ->]]; reflexivity.
Qed.

(** C9. [Track.is_instrumental] is [True] exactly when the metadata of the
    track maps "instrumental" to the string "Yes"; the boolean [True], the
    string "yes" and a missing field (which [dict.get] turns into [None])
    all give [False]. *)
Theorem is_instrumental_iff_Yes (items : list (string * json)) :
  (exists b, da_tacos.Track.is_instrumental (JObj items) = Ok b /\
     (b = true <-> dict.lookup "instrumental" items = Some (JStr "Yes"))) /\
  (dict.lookup "instrumental" items = Some (JBool true) ->
     da_tacos.Track.is_instrumental (JObj items) = Ok false) /\
  (dict.lookup "instrumental" items = Some (JStr "yes") ->
     da_tacos.Track.is_instrumental (JObj items) = Ok false) /\
  (dict.lookup "instrumental" items = None ->
     da_tacos.Track.is_instrumental (JObj items) = Ok false).
Proof.
  unfold da_tacos.Track.is_instrumental; simpl.
  split; [| by repeat split; intros ->].
  eexists; split; [reflexivity |].
  rewrite eq_str_true.
  destruct (dict.lookup "instrumental" items) as [v |]; simpl.
  - split; [intros -> | intros [= ->]]; reflexivity.
  - split; discriminate.
Qed.

Lemma is_instrumental_iff_Yes_witness :
  da_tacos.Track.is_instrumental
    (JObj [("perf_title", JStr "Song"); ("instrumental", JStr "Yes")]) = Ok true /\
  da_tacos.Track.is_instrumental (JObj [("instrumental", JBool true)]) = Ok false /\
  da_tacos.Track.is_instrumental (JObj [("instrumental", JStr "yes")]) = Ok false /\
  da_tacos.Track.is_instrumental (JObj [("perf_title", JStr "Song")]) = Ok false.
Proof.
  split; [| split; [| split]].
  - destruct (is_instrumental_iff_Yes
                [("perf_title", JStr "Song"); ("instrumental", JStr "Yes")])
      as [(b & -> & Hb) _].
    f_equal. apply Hb. reflexivity.
  - apply (proj1 (proj2 (is_instrumental_iff_Yes [("instrumental", JBool true)]))).
    reflexivity.
  - apply (proj1 (proj2 (proj2
             (is_instrumental_iff_Yes [("instrumental", JStr "yes")])))).
    reflexivity.
  - apply (proj2 (proj2 (proj2
             (is_instrumental_iff_Yes [("perf_title", JStr "Song")])))).
    reflexivity.
Defined.

(** ** Da-TACOS: the feature loaders *)

(** C6. Each loader returns the value stored under its own key of the
    mapping the file holds, as it is, whatever else the mapping holds. *)
Theorem loaders_return_own_key {V : Type} (fs : gmap string (gmap string V))
    (path : string) (blob : gmap string V) (v : V) :
  fs !! path = Some blob ->
  (blob !! "chroma_cens" = Some v -> da_tacos.load_cens fs path = Ok v) /\
  (blob !! "hpcp" = Some v -> da_tacos.load_hpcp fs path = Ok v) /\
  (blob !! "key_extractor" = Some v -> da_tacos.load_key fs path = Ok v) /\
  (blob !! "madmom_features" = Some v -> da_tacos.load_madmom fs path = Ok v) /\
  (blob !! "mfcc_htk" = Some v -> da_tacos.load_mfcc fs path = Ok v) /\
  (blob !! "tags" = Some v -> da_tacos.load_tags fs path = Ok v).
Proof.
  intros Hfs.
  unfold da_tacos.load_cens, da_tacos.load_hpcp, da_tacos.load_key,
    da_tacos.load_madmom, da_tacos.load_mfcc, da_tacos.load_tags,
    da_tacos.dd_io_load, da_tacos.blob_getitem.
  rewrite Hfs; simpl.
  repeat split; intros ->; reflexivity.
Qed.

Lemma loaders_return_own_key_witness :
  let blob : gmap string (list nat) :=
    {[ "chroma_cens" := [1]; "hpcp" := [2]; "key_extractor" := [3];
       "madmom_features" := [4]; "mfcc_htk" := [5]; "tags" := [6];
       "label" := [7]; "track_id" := [8] ]} in
  let fs : gmap string (gmap string (list nat)) := {[ "P_1.h5" := blob ]} in
  da_tacos.load_cens fs "P_1.h5" = Ok [1] /\
  da_tacos.load_hpcp fs "P_1.h5" = Ok [2] /\
  da_tacos.load_key fs "P_1.h5" = Ok [3] /\
  da_tacos.load_madmom fs "P_1.h5" = Ok [4] /\
  da_tacos.load_mfcc fs "P_1.h5" = Ok [5] /\
  da_tacos.load_tags fs "P_1.h5" = Ok [6].
Proof.
  intros blob fs.
  pose proof (fun v => loaders_return_own_key fs "P_1.h5" blob v eq_refl) as H.
  split; [| split; [| split; [| split; [| split]]]].
  - apply (H [1]). reflexivity.
  - apply (H [2]). reflexivity.
  - apply (H [3]). reflexivity.
  - apply (H [4]). reflexivity.
  - apply (H [5]). reflexivity.
  - apply (H [6]). reflexivity.
Defined.

(** ** Missing metadata files *)

Lemma exists_None {A} (fs : gmap string A) path :
  fs !! path = None -> os_path.exists_ fs path = false.
Proof.
  intros H. unfold os_path.exists_. rewrite H.
  apply bool_decide_eq_false. intros [x Hx]. discriminate.
Qed.

(** C8. When the metadata file of a dataset is not on disk, asking for the
    metadata raises [FileNotFoundError] at once: for TONAS when
    TONAS-Metadata.txt is missing, for Da-TACOS when the metadata file of
    either subset is missing. No mapping, empty or partial, is returned. *)
Theorem metadata_missing_file_raises :
  (forall (fs : gmap string (list string)) (data_home : string),
     fs !! os_path.join data_home ["TONAS-Metadata.txt"] = None ->
     tonas.Dataset._metadata fs data_home = Raise FileNotFoundError) /\
  (forall (fs : gmap string (result json)) (data_home subset : string),
     subset ∈ da_tacos.Dataset.subsets ->
     fs !! da_tacos.Dataset.path_of_subset data_home subset = None ->
     da_tacos.Dataset._metadata fs data_home = Raise FileNotFoundError).
Proof.
  split.
  - intros fs data_home H. unfold tonas.Dataset._metadata.
    by rewrite (exists_None _ _ H).
  - intros fs data_home subset Hin H.
    unfold da_tacos.Dataset._metadata, da_tacos.Dataset.subsets in *. simpl.
    unfold da_tacos.Dataset.check_subset at 1 2.
    apply elem_of_cons in Hin as [-> | Hin].
    + by rewrite (exists_None _ _ H).
    + apply list_elem_of_singleton in Hin as ->.
      destruct (os_path.exists_ fs
                  (da_tacos.Dataset.path_of_subset data_home "benchmark"));
        simpl; [| reflexivity].
      by rewrite (exists_None _ _ H).
Qed.

Lemma metadata_missing_file_raises_witness :
  tonas.Dataset._metadata ∅ "/data/tonas" = Raise FileNotFoundError /\
  da_tacos.Dataset._metadata
    {[ "/data/da-tacos_metadata/da-tacos_benchmark_subset_metadata.json"
         := Ok (JObj []) ]}
    "/data" = Raise FileNotFoundError.
Proof.
  split.
  - apply metadata_missing_file_raises. reflexivity.
  - apply (proj2 metadata_missing_file_raises _ "/data" "coveranalysis").
    + unfold da_tacos.Dataset.subsets. set_solver.
    + reflexivity.
Defined.

(** ** Da-TACOS: track identifiers *)

Lemma string_app_cons a (s t : string) : String a s +:+ t = String a (s +:+ t).
Proof. reflexivity. Qed.

Lemma string_app_nil (t : string) : "" +:+ t = t.
Proof. reflexivity. Qed.

Lemma split_app_sep (sep : ascii) (a rest : string) :
  str.contains_char sep a = false ->
  str.split sep (a +:+ String sep rest) = a :: str.split sep rest.
Proof.
  induction a as [| c a IH]; intros H.
  - rewrite string_app_nil. simpl. by rewrite Ascii.eqb_refl.
  - simpl in H. apply orb_false_iff in H as [Hc Ha].
    rewrite string_app_cons. simpl. rewrite Hc, (IH Ha). reflexivity.
Qed.

Lemma split_no_sep (sep : ascii) (a : string) :
  str.contains_char sep a = false -> str.split sep a = [a].
Proof.
  induction a as [| c a IH]; intros H; [reflexivity |].
  simpl in H. apply orb_false_iff in H as [Hc Ha].
  simpl. rewrite Hc, (IH Ha). reflexivity.
Qed.

(** A property of the loop state that every round keeps holds when the loop
    is over. *)
Lemma for_each_invariant {S A} (P : S -> Prop) (body : S -> A -> result S)
    (l : list A) (s s' : S) :
  (forall s a s', a ∈ l -> P s -> body s a = Ok s' -> P s') ->
  P s -> for_each body s l = Ok s' -> P s'.
Proof.
  revert s. induction l as [| a l IH]; intros s Hbody Hs; simpl.
  - by intros [= <-].
  - destruct (body s a) as [s1 |] eqn:Hs1; simpl; [| discriminate].
    apply IH.
    + intros s2 b s3 Hb. apply Hbody. by apply elem_of_cons; right.
    + apply (Hbody s a s1); [by apply elem_of_cons; left | done | done].
Qed.





(** ** TONAS: pitch of a note *)

Local Open Scope R_scope.











Local Close Scope R_scope.

(** ** The annotation records *)

Lemma mapM_result_Ok {A B} (f : A -> result B) (l : list A) (k : list B) :
  mapM f l = Ok k -> Forall2 (fun x y => f x = Ok y) l k.
Proof.
  revert k. induction l as [| x l IH]; intros k; simpl.
  - intros [= <-]. constructor.
  - destruct (f x) as [y | e] eqn:Hx; simpl; [| discriminate].
    destruct (mapM f l) as [k' | e]; simpl; [| discriminate].
    intros [= <-]. constructor; auto.
Qed.

Lemma mapM_result_const {A B} (f : A -> result B) (l : list A) (b : B) :
  Forall (fun x => f x = Ok b) l -> mapM f l = Ok (replicate (length l) b).
Proof.
  induction 1 as [| x l Hx _ IH]; simpl; [reflexivity |].
  rewrite Hx; simpl. rewrite IH. reflexivity.
Qed.

Lemma mapM_result_raise {A B} (f : A -> result B) (l : list A) (e0 e : exn) :
  (forall x e', f x = Raise e' -> e' = e0) -> mapM f l = Raise e -> e = e0.
Proof.
  intros Hf. induction l as [| x l IH]; simpl; [discriminate |].
  destruct (f x) as [y | e'] eqn:Hx; simpl.
  - destruct (mapM f l) as [k' | e'']; simpl; [discriminate |].
    intros [= <-]. by apply IH.
  - intros [= <-]. eauto.
Qed.

Lemma length_of_raise o e : annotations.length_of o = Raise e -> e = ValidationError.
Proof.
  destruct o as [| a | n]; simpl; try congruence.
  destruct (np.len a); congruence.
Qed.

Lemma forallb_eqb_replicate n k : forallb (Nat.eqb n) (replicate k n) = true.
Proof. induction k; simpl; [reflexivity |]. by rewrite Nat.eqb_refl. Qed.

Lemma forallb_eqb_all n ns m : forallb (Nat.eqb n) ns = true -> m ∈ ns -> m = n.
Proof.
  induction ns as [| a ns IH]; simpl; intros H Hin.
  - by apply elem_of_nil in Hin.
  - apply andb_true_iff in H as [Ha Hns].
    apply elem_of_cons in Hin as [-> | Hin]; [| auto].
    symmetry. by apply Nat.eqb_eq.
Qed.

Lemma validate_lengths_equal_Ok (group : list pyobj) :
  annotations.validate_lengths_equal group = Ok () <->
  exists n, forall x, x ∈ group -> is_none x = false -> annotations.length_of x = Ok n.
Proof.
  unfold annotations.validate_lengths_equal. split.
  - destruct (mapM _ _) as [lens | e] eqn:Hm; simpl; [| discriminate].
    apply mapM_result_Ok in Hm. intros Hlens.
    exists (hd 0 lens). intros x Hx Hnone.
    assert (x ∈ filter (fun o => is_none o = false) group) as Hin
      by (apply list_elem_of_filter; auto).
    apply list_elem_of_lookup in Hin as [i Hi].
    destruct (Forall2_lookup_l _ _ _ _ _ Hm Hi) as (k & Hk & Hlen).
    rewrite Hlen. f_equal.
    destruct lens as [| n ns]; [by rewrite lookup_nil in Hk |]. simpl.
    destruct (forallb (Nat.eqb n) ns) eqn:Hall; [| discriminate].
    destruct i; simpl in Hk; [congruence |].
    eapply forallb_eqb_all; [eassumption |].
    apply list_elem_of_lookup. eauto.
  - intros [n Hn].
    rewrite (mapM_result_const _ _ n); simpl.
    + destruct (length _); simpl; [reflexivity |].
      by rewrite forallb_eqb_replicate.
    + apply Forall_forall. intros x [Hnone Hx]%list_elem_of_filter. auto.
Qed.

Lemma validate_lengths_equal_agree group :
  annotations.validate_lengths_equal group = Ok () -> lengths_agree group.
Proof.
  intros H x y n m Hx Hy Hn Hm.
  apply validate_lengths_equal_Ok in H. destruct H as [k Hk].
  assert (is_none x = false) as Hx' by (destruct x; simpl in *; congruence).
  assert (is_none y = false) as Hy' by (destruct y; simpl in *; congruence).
  rewrite (Hk x Hx Hx') in Hn. rewrite (Hk y Hy Hy') in Hm. congruence.
Qed.

Lemma agree_not_differ group : lengths_agree group -> lengths_differ group -> False.
Proof.
  intros Hagree (x & y & n & m & Hx & Hy & Hn & Hm & Hne).
  exact (Hne (Hagree x y n m Hx Hy Hn Hm)).
Qed.

(** Every check fails with the one error. *)
Lemma validation_bind {A B} (m : result A) (k : A -> result B) :
  validation A m -> (forall a, validation B (k a)) -> validation B (m ≫= k).
Proof.
  intros Hm Hk e. destruct m as [a | e']; simpl.
  - apply Hk.
  - intros [= <-]. by apply Hm.
Qed.

Lemma validation_Ok {A} (a : A) : validation A (Ok a).
Proof. intros e. discriminate. Qed.

Lemma validation_array_like o : validation _ (annotations.validate_array_like o).
Proof. intros e. destruct o; simpl; congruence. Qed.

Lemma validation_optional o : validation _ (annotations.validate_optional o).
Proof. intros e. destruct o; simpl; congruence. Qed.

Lemma validation_lengths_equal l : validation _ (annotations.validate_lengths_equal l).
Proof.
  intros e. unfold annotations.validate_lengths_equal.
  destruct (mapM _ _) as [lens | e'] eqn:Hm; simpl.
  - destruct lens as [| n ns]; [discriminate |].
    destruct (forallb _ _); congruence.
  - intros [= <-]. eapply mapM_result_raise; [| exact Hm].
    intros x e''. apply length_of_raise.
Qed.

Lemma validation_times o : validation _ (annotations.validate_times o).
Proof.
  intros e. destruct o as [| [] |]; simpl; try congruence.
  destruct (_ && _); congruence.
Qed.

Lemma validation_intervals o : validation _ (annotations.validate_intervals o).
Proof.
  intros e. destruct o as [| [] |]; simpl; try congruence.
  destruct (forallb _ _); congruence.
Qed.

Ltac validation_step :=
  first [ apply validation_Ok | apply validation_array_like
        | apply validation_optional | apply validation_lengths_equal
        | apply validation_times | apply validation_intervals
        | apply validation_bind; [| intros ?] ].

Lemma validation_F0Data ts af fr en cf : validation _ (tonas.F0Data.__init__ ts af fr en cf).
Proof.
  unfold tonas.F0Data.__init__, annotations.F0Data.__init__.
  repeat validation_step.
Qed.

Lemma validation_NoteData iv nt en cf : validation _ (tonas.NoteData.__init__ iv nt en cf).
Proof.
  unfold tonas.NoteData.__init__, annotations.NoteData.__init__.
  repeat validation_step.
Qed.

(** Splits [H : (m ≫= k) = Ok _] into what each step returned. *)
Ltac bind_ok :=
  repeat match goal with
  | H : (?m ≫= _) = Ok _ |- _ =>
      let E := fresh "E" in
      destruct m as [? | ?] eqn:E; simpl in H; [| discriminate H]
  | u : unit |- _ => destruct u
  end.

Lemma validate_lengths_equal_same (n : nat) (group : list pyobj) :
  Forall (fun o => is_none o = false -> annotations.length_of o = Ok n) group ->
  annotations.validate_lengths_equal group = Ok ().
Proof.
  intros H. apply validate_lengths_equal_Ok. exists n.
  intros x Hx. by apply (proj1 (Forall_forall _ _) H).
Qed.

Ltac reals_decide :=
  repeat first [ rewrite bool_decide_eq_true_2 by lra
               | rewrite bool_decide_eq_false_2 by lra ].

Lemma validate_times_Ok (ts : list R) :
  annotations.non_negative ts = true ->
  annotations.strictly_increasing ts = true ->
  annotations.validate_times (float_array ts) = Ok ().
Proof. intros H1 H2. simpl. by rewrite H1, H2. Qed.

(** The constructor accepts arrays of one length over valid time stamps,
    with or without confidence. *)
Lemma F0Data_init_arrays (ts afs fs es : list R) (cf : option (list R)) :
  length afs = length ts -> length fs = length ts -> length es = length ts ->
  (forall cs, cf = Some cs -> length cs = length ts) ->
  annotations.validate_times (float_array ts) = Ok () ->
  tonas.F0Data.__init__ (float_array ts) (float_array afs) (float_array fs)
    (float_array es) (optional_array cf)
  = Ok (tonas.F0Data.Build
          (annotations.F0Data.Build (float_array ts) (float_array fs) (optional_array cf))
          (float_array afs) (float_array es)).
Proof.
  intros Ha Hf He Hc Ht.
  unfold tonas.F0Data.__init__, annotations.F0Data.__init__.
  assert (annotations.validate_optional (optional_array cf) = Ok ()) as ->
    by (by destruct cf).
  assert (is_none (optional_array cf) = false ->
          annotations.length_of (optional_array cf) = Ok (length ts)) as Hcf.
  { destruct cf as [cs |]; simpl; [| discriminate].
    intros _. f_equal. by apply Hc. }
  rewrite Ht, !(validate_lengths_equal_same (length ts)); [reflexivity | |];
    repeat constructor; try exact Hcf; simpl; intros; congruence.
Qed.

Lemma forallb_elem_of {A} (f : A -> bool) (l : list A) :
  forallb f l = true <-> forall x, x ∈ l -> f x = true.
Proof.
  rewrite forallb_forall. split; intros H x Hx; apply H; by apply list_elem_of_In.
Qed.

Lemma valid_interval_true (row : list R) :
  annotations.valid_interval row = true <->
  exists start_time end_time,
    row = [start_time; end_time] /\ (0 <= start_time)%R /\ (start_time <= end_time)%R.
Proof.
  unfold annotations.valid_interval. split.
  - destruct row as [| s [| e [| ? ?]]]; try discriminate.
    intros [H1 H2]%andb_true_iff.
    apply bool_decide_eq_true in H1, H2. eauto.
  - intros (s & e & -> & H1 & H2).
    apply andb_true_iff. split; by apply bool_decide_eq_true.
Qed.

Lemma validate_intervals_Ok (intervals : pyobj) :
  annotations.validate_intervals intervals = Ok () <-> intervals_well_formed intervals.
Proof.
  unfold intervals_well_formed, annotations.validate_intervals, interval_rows.
  split.
  - destruct intervals as [| [x | xs | rows] | n]; try discriminate.
    destruct (forallb _ rows) eqn:H; [| discriminate].
    intros _. exists rows. split; [reflexivity |].
    apply Forall_forall. intros row Hrow. apply valid_interval_true.
    by apply (proj1 (forallb_elem_of _ _) H).
  - intros (rows & Hrows & Hall).
    destruct intervals as [| [x | xs | rows'] | n]; try discriminate.
    injection Hrows as ->.
    assert (forallb annotations.valid_interval rows = true) as ->; [| reflexivity].
    apply forallb_elem_of. intros row Hrow. apply valid_interval_true.
    by apply (proj1 (Forall_forall _ _) Hall).
Qed.

(** The constructor accepts well-formed intervals with arrays of their
    length. *)
Lemma NoteData_init_arrays (intervals : np.ndarray) (n : nat) (ns es : list R)
    (cf : option (list R)) :
  intervals_well_formed (PyArray intervals) ->
  np.len intervals = Ok n ->
  length ns = n -> length es = n ->
  (forall cs, cf = Some cs -> length cs = n) ->
  tonas.NoteData.__init__ (PyArray intervals) (float_array ns) (float_array es)
    (optional_array cf)
  = Ok (tonas.NoteData.Build
          (annotations.NoteData.Build (PyArray intervals) (float_array ns)
             (optional_array cf))
          (float_array es)).
Proof.
  intros Hwf Hlen Hn He Hc.
  unfold tonas.NoteData.__init__, annotations.NoteData.__init__.
  assert (annotations.validate_optional (optional_array cf) = Ok ()) as ->
    by (by destruct cf).
  assert (is_none (optional_array cf) = false ->
          annotations.length_of (optional_array cf) = Ok n) as Hcf.
  { destruct cf as [cs |]; simpl; [| discriminate].
    intros _. f_equal. by apply Hc. }
  apply validate_intervals_Ok in Hwf.
  rewrite Hwf, !(validate_lengths_equal_same n); [reflexivity | |];
    repeat constructor; try exact Hcf; simpl; intros; try congruence;
    by rewrite Hlen.
Qed.

(** C4. Constructing a TONAS [F0Data] succeeds only if the arguments that
    are not [None] all have the same length; it raises [ValidationError]
    when two of them have different lengths; and a [None] confidence takes
    no part in the comparison. *)
Theorem F0Data_lengths (times automatic_frequencies frequencies energies confidence : pyobj) :
  let group := [times; automatic_frequencies; frequencies; energies; confidence] in
  (forall d,
     tonas.F0Data.__init__ times automatic_frequencies frequencies energies confidence = Ok d ->
     lengths_agree group) /\
  (lengths_differ group ->
     tonas.F0Data.__init__ times automatic_frequencies frequencies energies confidence
     = Raise ValidationError) /\
  (forall ts afs fs es : list R,
     times = float_array ts -> automatic_frequencies = float_array afs ->
     frequencies = float_array fs -> energies = float_array es ->
     confidence = PyNone ->
     length afs = length ts -> length fs = length ts -> length es = length ts ->
     annotations.validate_times times = Ok () ->
     tonas.F0Data.__init__ times automatic_frequencies frequencies energies confidence
     = Ok (tonas.F0Data.Build (annotations.F0Data.Build times frequencies PyNone)
             automatic_frequencies energies)) /\
  annotations.validate_lengths_equal
    [times; automatic_frequencies; frequencies; energies; PyNone]
  = annotations.validate_lengths_equal
      [times; automatic_frequencies; frequencies; energies].
Proof.
  intros group.
  assert (Hok : forall d,
     tonas.F0Data.__init__ times automatic_frequencies frequencies energies confidence = Ok d ->
     lengths_agree group).
  { intros d H. unfold tonas.F0Data.__init__ in H. bind_ok.
    by apply validate_lengths_equal_agree. }
  split; [exact Hok | split; [| split]].
  - intros Hdiff.
    destruct (tonas.F0Data.__init__ _ _ _ _ _) as [d | e] eqn:H.
    + destruct (agree_not_differ _ (Hok d eq_refl) Hdiff).
    + f_equal. by eapply validation_F0Data.
  - intros ts afs fs es -> -> -> -> -> Ha Hf He Ht.
    by apply (F0Data_init_arrays ts afs fs es None).
  - unfold annotations.validate_lengths_equal.
    change [times; automatic_frequencies; frequencies; energies; PyNone]
      with ([times; automatic_frequencies; frequencies; energies] ++ [PyNone]).
    rewrite filter_app.
    change (filter (fun o => is_none o = false) [PyNone]) with (@nil pyobj).
    by rewrite app_nil_r.
Qed.

Lemma F0Data_lengths_witness :
  tonas.F0Data.__init__ (float_array [0; 1]%R) (float_array [220; 0]%R)
    (float_array [221; 0]%R) (float_array [3; 4]%R) PyNone
  = Ok (tonas.F0Data.Build
          (annotations.F0Data.Build (float_array [0; 1]%R) (float_array [221; 0]%R) PyNone)
          (float_array [220; 0]%R) (float_array [3; 4]%R)) /\
  lengths_agree [float_array [0; 1]%R; float_array [220; 0]%R;
                 float_array [221; 0]%R; float_array [3; 4]%R; PyNone] /\
  tonas.F0Data.__init__ (float_array [0; 1]%R) (float_array [220; 0]%R)
    (float_array [221; 0]%R) (float_array [3]%R) PyNone
  = Raise ValidationError.
Proof.
  assert (tonas.F0Data.__init__ (float_array [0; 1]%R) (float_array [220; 0]%R)
            (float_array [221; 0]%R) (float_array [3; 4]%R) PyNone
          = Ok (tonas.F0Data.Build
                  (annotations.F0Data.Build (float_array [0; 1]%R)
                     (float_array [221; 0]%R) PyNone)
                  (float_array [220; 0]%R) (float_array [3; 4]%R))) as Hok.
  { eapply (proj1 (proj2 (proj2 (F0Data_lengths _ _ _ _ _)))); try reflexivity.
    apply validate_times_Ok; simpl; reals_decide; reflexivity. }
  split; [exact Hok | split].
  - exact (proj1 (F0Data_lengths _ _ _ _ _) _ Hok).
  - apply (proj1 (proj2 (F0Data_lengths _ _ _ _ _))).
    exists (float_array [0; 1]%R), (float_array [3]%R), 2, 1.
    repeat split; [set_solver | set_solver | lia].
Defined.

(** C5. Constructing a TONAS [NoteData] succeeds only if every interval is
    a row [start_time, end_time] with [0 <= start_time <= end_time] and the
    arguments that are not [None] all have the length of the intervals; it
    raises [ValidationError] when an interval ends before it starts and
    when lengths differ. *)
Theorem NoteData_valid (intervals notes energies confidence : pyobj) :
  let group := [intervals; notes; energies; confidence] in
  (forall d,
     tonas.NoteData.__init__ intervals notes energies confidence = Ok d ->
     intervals_well_formed intervals /\ lengths_agree group) /\
  (forall rows start_time end_time,
     interval_rows intervals = Some rows ->
     [start_time; end_time] ∈ rows -> (end_time < start_time)%R ->
     tonas.NoteData.__init__ intervals notes energies confidence
     = Raise ValidationError) /\
  (lengths_differ group ->
     tonas.NoteData.__init__ intervals notes energies confidence
     = Raise ValidationError).
Proof.
  intros group.
  assert (Hok : forall d,
     tonas.NoteData.__init__ intervals notes energies confidence = Ok d ->
     intervals_well_formed intervals /\ lengths_agree group).
  { intros d H.
    unfold tonas.NoteData.__init__, annotations.NoteData.__init__ in H.
    bind_ok. split.
    - apply validate_intervals_Ok. assumption.
    - apply validate_lengths_equal_agree. assumption. }
  assert (Hraise :
     (forall d, tonas.NoteData.__init__ intervals notes energies confidence <> Ok d) ->
     tonas.NoteData.__init__ intervals notes energies confidence = Raise ValidationError).
  { intros Hd.
    destruct (tonas.NoteData.__init__ _ _ _ _) as [d' | e] eqn:H.
    - destruct (Hd d' eq_refl).
    - f_equal. by eapply validation_NoteData. }
  split; [exact Hok | split].
  - intros rows s e Hrows Hin Hlt. apply Hraise. intros d Hd.
    destruct (Hok d Hd) as [(rows' & Hrows' & Hall) _].
    rewrite Hrows in Hrows'. injection Hrows' as <-.
    apply (proj1 (Forall_forall _ _) Hall) in Hin
      as (s' & e' & [= -> ->] & H0 & Hle).
    lra.
  - intros Hdiff. apply Hraise. intros d Hd.
    exact (agree_not_differ _ (proj2 (Hok d Hd)) Hdiff).
Qed.

Lemma NoteData_valid_witness :
  tonas.NoteData.__init__ (PyArray (np.Nd2 [[0; 2]; [3; 1]]%R))
    (float_array [220; 440]%R) (float_array [1; 1]%R) PyNone
  = Raise ValidationError /\
  tonas.NoteData.__init__ (PyArray (np.Nd2 [[0; 2]; [3; 4]]%R))
    (float_array [220]%R) (float_array [1; 1]%R) PyNone
  = Raise ValidationError /\
  intervals_well_formed (PyArray (np.Nd2 [[0; 2]; [3; 4]]%R)) /\
  lengths_agree [PyArray (np.Nd2 [[0; 2]; [3; 4]]%R); float_array [220; 440]%R;
                 float_array [1; 1]%R; PyNone].
Proof.
  split; [| split].
  - eapply (proj1 (proj2 (NoteData_valid _ _ _ _)))
      with (start_time := 3%R) (end_time := 1%R).
    + reflexivity.
    + set_solver.
    + lra.
  - apply (proj2 (proj2 (NoteData_valid _ _ _ _))).
    exists (PyArray (np.Nd2 [[0; 2]; [3; 4]]%R)), (float_array [220]%R), 2, 1.
    repeat split; [set_solver | set_solver | lia].
  - eapply (proj1 (NoteData_valid _ _ _ _)).
    apply (NoteData_init_arrays (np.Nd2 [[0; 2]; [3; 4]]%R) 2
             [220; 440]%R [1; 1]%R None); try reflexivity.
    + eexists. split; [reflexivity |].
      repeat constructor; eexists _, _; (split; [reflexivity | lra]).
    + discriminate.
Defined.

(** ** TONAS: the f0 file *)

Lemma for_each_load_f0_line (frames : list f0_frame) (acc : tonas.f0_lists) :
  for_each tonas.load_f0_line acc (np.Nd1 <$> f0_file frames)
  = Ok (tonas.F0Lists
          (tonas.f0_times acc ++ (time <$> frames))
          (tonas.f0_freqs acc ++ (automatic_frequency <$> frames))
          (tonas.f0_freqs_corr acc ++ (corrected_frequency <$> frames))
          (tonas.f0_energies acc ++ (energy <$> frames))
          (tonas.f0_confidence acc ++ (frame_confidence <$> frames))).
Proof.
  revert acc. induction frames as [| r frames IH]; intros acc.
  - simpl. rewrite !app_nil_r. by destruct acc.
  - change (for_each tonas.load_f0_line acc (np.Nd1 <$> f0_file (r :: frames)))
      with (tonas.load_f0_line acc
              (np.Nd1 [time r; energy r; automatic_frequency r; corrected_frequency r])
            ≫= fun acc' => for_each tonas.load_f0_line acc' (np.Nd1 <$> f0_file frames)).
    unfold tonas.load_f0_line at 1. simpl. rewrite IH. simpl.
    rewrite <- !app_assoc. reflexivity.
Qed.

Lemma genfromtxt_frames (r1 r2 : f0_frame) (frames : list f0_frame) :
  np.genfromtxt (f0_file (r1 :: r2 :: frames))
  = Ok (np.Nd2 (f0_file (r1 :: r2 :: frames))).
Proof.
  unfold np.genfromtxt.
  assert (forall l, filter (fun row : list R => row <> []) (f0_file l) = f0_file l) as ->.
  { induction l as [| r l IH]; [reflexivity |].
    unfold f0_file in *. rewrite fmap_cons, filter_cons_True by done.
    by rewrite IH. }
  assert (forall l, forallb (fun r : list R => length r =? 4) (f0_file l) = true) as H4
    by (induction l; simpl; auto).
  simpl. rewrite H4. reflexivity.
Qed.

(** A file of at least two frames over valid time stamps is loaded column
    by column, in the order of the lines. *)
Lemma load_f0_columns (frames : list f0_frame) :
  2 <= length frames ->
  annotations.validate_times (float_array (time <$> frames)) = Ok () ->
  tonas.load_f0 (f0_file frames)
  = Ok (tonas.F0Data.Build
          (annotations.F0Data.Build
             (float_array (time <$> frames))
             (float_array (corrected_frequency <$> frames))
             (float_array (frame_confidence <$> frames)))
          (float_array (automatic_frequency <$> frames))
          (float_array (energy <$> frames))).
Proof.
  intros Hlen Htimes.
  destruct frames as [| r1 [| r2 frames]]; simpl in Hlen; try lia.
  unfold tonas.load_f0. rewrite genfromtxt_frames.
  change (np.iter (np.Nd2 (f0_file (r1 :: r2 :: frames))))
    with (Ok (np.Nd1 <$> f0_file (r1 :: r2 :: frames)) : result (list np.ndarray)).
  set (l := r1 :: r2 :: frames) in *.
  change (for_each tonas.load_f0_line (tonas.F0Lists [] [] [] [] []) (np.Nd1 <$> f0_file l)
          ≫= (fun acc => tonas.F0Data.__init__
                (PyArray (np.array (tonas.f0_times acc)))
                (PyArray (np.array (tonas.f0_freqs acc)))
                (PyArray (np.array (tonas.f0_freqs_corr acc)))
                (PyArray (np.array (tonas.f0_energies acc)))
                (PyArray (np.array (tonas.f0_confidence acc))))
          = Ok (tonas.F0Data.Build
          (annotations.F0Data.Build
             (float_array (time <$> l))
             (float_array (corrected_frequency <$> l))
             (float_array (frame_confidence <$> l)))
          (float_array (automatic_frequency <$> l))
          (float_array (energy <$> l)))).
  rewrite for_each_load_f0_line. cbn [mbind result_bind tonas.f0_times tonas.f0_freqs
    tonas.f0_freqs_corr tonas.f0_energies tonas.f0_confidence app].
  apply (F0Data_init_arrays _ _ _ _ (Some (frame_confidence <$> l)));
    rewrite ?length_fmap; auto.
  intros cs [= <-]. apply (length_fmap frame_confidence l).
Qed.

(** C2. [load_f0] is to return, for every well-formed f0 file, the record
    of its columns with the confidence derived from the corrected
    frequency. It does so from two frames on ([load_f0_columns]); on a file
    of a single frame it raises [IndexError]: [np.genfromtxt] gives back an
    array of one axis, the loop runs over its four numbers, and a number
    cannot be indexed. *)
Theorem load_f0_single_frame (t e a c : R) :
  tonas.load_f0 [[t; e; a; c]] = Raise IndexError.
Proof. reflexivity. Qed.

(** Corrected frequencies 0.0, 5.0, -1.0, 3.2 give the confidence
    0, 1, 0, 1. *)
Example load_f0_confidence :
  exists d,
    tonas.load_f0
      [[0; 1; 100; 0]; [1; 1; 100; 5]; [2; 1; 100; -1]; [3; 1; 100; 3.2]]%R = Ok d /\
    tonas.F0Data.frequencies d = float_array [0; 5; -1; 3.2]%R /\
    tonas.F0Data.confidence d = float_array [0; 1; 0; 1]%R.
Proof.
  eexists. split.
  - apply (load_f0_columns
             [F0Frame 0 1 100 0; F0Frame 1 1 100 5; F0Frame 2 1 100 (-1);
              F0Frame 3 1 100 3.2]%R).
    + simpl; lia.
    + apply validate_times_Ok; simpl; reals_decide; reflexivity.
  - split; [reflexivity |].
    unfold tonas.F0Data.confidence; simpl. unfold frame_confidence; simpl.
    reals_decide. reflexivity.
Qed.

(** ** TONAS: the notes file *)








(** ** The csv reader on plain fields *)



Section plain_fields.

Variable d : ascii.
Hypothesis d_not_newline : csv.is_newline d = false.
Hypothesis d_not_quote : Ascii.eqb d str.QUOTE = false.
Hypothesis d_not_nul : Ascii.eqb d str.NUL = false.





End plain_fields.

(** ** TONAS: the metadata file *)











(** The line of the specification, as it stands (no newline at its end). *)
Example tonas_metadata_line_0000 :
  tonas.Dataset._metadata
    {[ "/data/tonas/TONAS-Metadata.txt" :=
         ["0000.wav" +:+ String str.TAB
            ("Martinete 1" +:+ String str.TAB
               ("Title X" +:+ String str.TAB "Singer Y"))] ]}
    "/data/tonas"
  = Ok {[ "0000" := <["style" := "Martinete 1"]>
                      (<["title" := "Title X"]> {["singer" := "Singer Y"]}) ]}.
Proof. vm_compute. reflexivity. Qed.


(** * Further properties *)

(** ** TONAS: more on the pitch of a note *)

Local Open Scope R_scope.







Local Close Scope R_scope.

(** ** TONAS: more on the notes file *)





























(** ** TONAS: more on the f0 file *)

(** X9. From two frames on, over time stamps that increase strictly from 0 or
    later, [load_f0] returns the columns of the file in the order of its
    lines: times, energies, the two frequencies, and a confidence of 1
    where the corrected frequency is positive and 0 elsewhere. *)
Theorem load_f0_from_two_frames (frames : list f0_frame) :
  2 <= length frames ->
  annotations.validate_times (float_array (time <$> frames)) = Ok () ->
  tonas.load_f0 (f0_file frames)
  = Ok (tonas.F0Data.Build
          (annotations.F0Data.Build
             (float_array (time <$> frames))
             (float_array (corrected_frequency <$> frames))
             (float_array (frame_confidence <$> frames)))
          (float_array (automatic_frequency <$> frames))
          (float_array (energy <$> frames))).
Proof. apply load_f0_columns. Qed.

Lemma load_f0_from_two_frames_witness :
  tonas.load_f0 [[0; 1; 100; 0]; [0.5; 1; 100; 5]]%R
  = Ok (tonas.F0Data.Build
          (annotations.F0Data.Build
             (float_array [0; 0.5]%R)
             (float_array [0; 5]%R)
             (float_array [frame_confidence (F0Frame 0 1 100 0);
                           frame_confidence (F0Frame 0.5 1 100 5)]%R))
          (float_array [100; 100]%R)
          (float_array [1; 1]%R)).
Proof.
  apply (load_f0_from_two_frames [F0Frame 0 1 100 0; F0Frame 0.5 1 100 5]%R).
  - simpl. lia.
  - apply validate_times_Ok; simpl; reals_decide; reflexivity.
Defined.

Lemma filter_nonempty_rows (w : nat) (rows : list (list R)) :
  1 <= w -> Forall (fun r => length r = w) rows ->
  filter (fun row : list R => row <> []) rows = rows.
Proof.
  intros Hw. induction 1 as [| r rows Hr _ IH]; [reflexivity |].
  rewrite filter_cons_True; [by rewrite IH |].
  intros ->. simpl in Hr. lia.
Qed.

Lemma forallb_width (w : nat) (rows : list (list R)) :
  Forall (fun r => length r = w) rows ->
  forallb (fun r : list R => length r =? w) rows = true.
Proof.
  induction 1 as [| r rows Hr _ IH]; [reflexivity |].
  simpl. rewrite IH, andb_true_r. by apply Nat.eqb_eq.
Qed.

(** X10. A file of two or more lines that all have one, two or three columns
    makes [load_f0] raise [IndexError]. *)
Theorem load_f0_narrow_file (w : nat) (r1 r2 : list R) (rows : list (list R)) :
  1 <= w <= 3 ->
  Forall (fun r => length r = w) (r1 :: r2 :: rows) ->
  tonas.load_f0 (r1 :: r2 :: rows) = Raise IndexError.
Proof.
  intros Hw Hall. unfold tonas.load_f0, np.genfromtxt.
  rewrite (filter_nonempty_rows w) by (done || lia).
  pose proof Hall as Hall'.
  apply Forall_cons in Hall' as [Hr1 Hrest].
  rewrite <- Hr1 in Hrest. rewrite (forallb_width _ _ Hrest).
  cbn [mbind result_bind].
  destruct r1 as [| a [| b [| c [| ? ?]]]]; simpl in Hr1; try lia.
  - (* one column: the squeezed table has one axis *)
    assert (forallb (fun row : list R => length row =? 1) ([a] :: r2 :: rows) = true)
      as H1 by (apply forallb_width; by rewrite Hr1).
    unfold np.squeeze. rewrite H1. reflexivity.
  - (* two columns *)
    assert (np.squeeze ([a; b] :: r2 :: rows) = np.Nd2 ([a; b] :: r2 :: rows)) as ->
      by reflexivity.
    reflexivity.
  - (* three columns *)
    assert (np.squeeze ([a; b; c] :: r2 :: rows) = np.Nd2 ([a; b; c] :: r2 :: rows)) as ->
      by reflexivity.
    reflexivity.
Qed.

Lemma load_f0_narrow_file_witness :
  tonas.load_f0 [[0; 1; 100]; [0.5; 1; 100]]%R = Raise IndexError.
Proof.
  apply (load_f0_narrow_file 3); [lia |]. repeat constructor.
Defined.

Lemma load_f0_line_consistent acc line acc' :
  f0_lists_consistent acc -> tonas.load_f0_line acc line = Ok acc' ->
  f0_lists_consistent acc'.
Proof.
  intros (Hf & Hc & He & Hall) H. unfold tonas.load_f0_line in H.
  destruct (np.getitem line 0 ≫= np.to_float) as [t |];
    cbn [mbind result_bind] in H; [| discriminate].
  destruct (np.getitem line 1 ≫= np.to_float) as [e |];
    cbn [mbind result_bind] in H; [| discriminate].
  destruct (np.getitem line 2 ≫= np.to_float) as [f |];
    cbn [mbind result_bind] in H; [| discriminate].
  destruct (np.getitem line 3 ≫= np.to_float) as [fc |];
    cbn [mbind result_bind] in H; [| discriminate].
  injection H as <-. unfold f0_lists_consistent. simpl.
  rewrite !length_app, Hf, Hc, He. repeat split; try reflexivity.
  apply Forall2_app; [exact Hall |]. by repeat constructor.
Qed.

Lemma F0Data_init_Ok_fields ts afs fs es cs d :
  tonas.F0Data.__init__ ts afs fs es cs = Ok d ->
  d = tonas.F0Data.Build (annotations.F0Data.Build ts fs cs) afs es.
Proof.
  unfold tonas.F0Data.__init__, annotations.F0Data.__init__. intros H.
  bind_ok. by simplify_eq.
Qed.

(** X11. Whatever file it is given, a record that [load_f0] returns holds five
    arrays of one length, and its confidence is 1 exactly where its
    frequency is positive and 0 elsewhere. *)
Theorem load_f0_record_consistent (fhandle : list (list R)) (d : tonas.F0Data.t) :
  tonas.load_f0 fhandle = Ok d ->
  exists ts afs fs es cs,
    tonas.F0Data.times d = float_array ts /\
    tonas.F0Data.automatic_frequencies d = float_array afs /\
    tonas.F0Data.frequencies d = float_array fs /\
    tonas.F0Data.energies d = float_array es /\
    tonas.F0Data.confidence d = float_array cs /\
    length afs = length ts /\ length fs = length ts /\ length es = length ts /\
    Forall2 (fun f c => c = if bool_decide (0 < f)%R then 1%R else 0%R) fs cs.
Proof.
  unfold tonas.load_f0. intros H.
  destruct (np.genfromtxt fhandle) as [reader |]; cbn [mbind result_bind] in H;
    [| discriminate].
  destruct (np.iter reader) as [lines |]; cbn [mbind result_bind] in H;
    [| discriminate].
  destruct (for_each _ _ lines) as [acc |] eqn:Hloop; cbn [mbind result_bind] in H;
    [| discriminate].
  apply F0Data_init_Ok_fields in H as ->.
  assert (f0_lists_consistent acc) as (Hf & Hc & He & Hall).
  { eapply (for_each_invariant f0_lists_consistent); [| | exact Hloop].
    - intros s a s' _. apply load_f0_line_consistent.
    - repeat split; constructor. }
  exists (tonas.f0_times acc), (tonas.f0_freqs acc), (tonas.f0_freqs_corr acc),
    (tonas.f0_energies acc), (tonas.f0_confidence acc).
  repeat split; assumption.
Qed.

Lemma load_f0_record_consistent_witness :
  exists ts afs fs es cs,
    float_array [0; 0.5]%R = float_array ts /\
    float_array [100; 100]%R = float_array afs /\
    float_array [0; 5]%R = float_array fs /\
    float_array [1; 1]%R = float_array es /\
    float_array [frame_confidence (F0Frame 0 1 100 0);
                 frame_confidence (F0Frame 0.5 1 100 5)]%R = float_array cs /\
    length afs = length ts /\ length fs = length ts /\ length es = length ts /\
    Forall2 (fun f c => c = if bool_decide (0 < f)%R then 1%R else 0%R) fs cs.
Proof.
  apply (load_f0_record_consistent [[0; 1; 100; 0]; [0.5; 1; 100; 5]]%R
           (tonas.F0Data.Build
              (annotations.F0Data.Build
                 (float_array [0; 0.5]%R)
                 (float_array [0; 5]%R)
                 (float_array [frame_confidence (F0Frame 0 1 100 0);
                               frame_confidence (F0Frame 0.5 1 100 5)]%R))
              (float_array [100; 100]%R)
              (float_array [1; 1]%R))).
  apply (load_f0_columns [F0Frame 0 1 100 0; F0Frame 0.5 1 100 5]%R).
  - simpl. lia.
  - apply validate_times_Ok; simpl; reals_decide; reflexivity.
Defined.

(** ** The csv reader on lines of plain fields *)

Section delimited_lines.

Variable d : ascii.
Hypothesis d_not_newline : csv.is_newline d = false.
Hypothesis d_not_quote : Ascii.eqb d str.QUOTE = false.
Hypothesis d_not_nul : Ascii.eqb d str.NUL = false.





End delimited_lines.

(** ** TONAS: more on the metadata file *)












Lemma for_iter_invariant {S A} (P : S -> Prop) (body : S -> A -> result S)
    (it : iterator A) (s s' : S) :
  (forall s a s', P s -> body s a = Ok s' -> P s') ->
  P s -> for_iter body s it = Ok s' -> P s'.
Proof.
  intros Hbody. revert s. induction it as [| [a | e] it IH]; intros s Hs; simpl.
  - by intros [= <-].
  - destruct (body s a) as [s1 |] eqn:Hs1; simpl; [| discriminate].
    apply IH. by apply (Hbody s a).
  - discriminate.
Qed.

(** X14. Every entry of the TONAS metadata holds a style, a title and a singer,
    and nothing else: for a track that has an entry, the properties
    [style], [title] and [singer] are never [None]. *)
Theorem metadata_entries_complete (fs : gmap string (list string))
    (data_home : string) (metadata : gmap string (gmap string string))
    (track_id : string) (entry : gmap string string) :
  tonas.Dataset._metadata fs data_home = Ok metadata ->
  metadata !! track_id = Some entry ->
  exists style title singer,
    entry = <["style" := style]> (<["title" := title]> {["singer" := singer]}) /\
    tonas.Track.style entry = Some style /\
    tonas.Track.title entry = Some title /\
    tonas.Track.singer entry = Some singer.
Proof.
  unfold tonas.Dataset._metadata.
  destruct (negb _); [discriminate |].
  destruct (fs !! _) as [f |]; cbn [of_option mbind result_bind]; [| discriminate].
  intros Hloop. revert track_id entry.
  eapply (for_iter_invariant
            (fun m : gmap string (gmap string string) =>
               forall track_id entry, m !! track_id = Some entry ->
               exists style title singer,
                 entry = <["style" := style]> (<["title" := title]> {["singer" := singer]}) /\
                 tonas.Track.style entry = Some style /\
                 tonas.Track.title entry = Some title /\
                 tonas.Track.singer entry = Some singer));
    [| | exact Hloop].
  - intros m line m' Hm. unfold tonas.Dataset._metadata_line.
    destruct line as [| l0 line]; [by intros [= <-] |].
    destruct (getitem (l0 :: line) 0) as [x0 |]; cbn [fmap result_fmap mbind result_bind];
      [| discriminate].
    destruct (getitem (l0 :: line) 1) as [x1 |]; cbn [mbind result_bind]; [| discriminate].
    destruct (getitem (l0 :: line) 2) as [x2 |]; cbn [mbind result_bind]; [| discriminate].
    destruct (getitem (l0 :: line) 3) as [x3 |]; cbn [mbind result_bind]; [| discriminate].
    intros [= <-] track_id entry. rewrite lookup_insert. case_decide.
    + intros [= <-]. exists x1, x2, x3. repeat split; reflexivity.
    + apply Hm.
  - intros track_id entry. by rewrite lookup_empty.
Qed.

Lemma metadata_entries_complete_witness :
  exists style title singer,
    (<["style" := "Martinete 1"]> (<["title" := "Title X"]> {["singer" := "Singer Y"]})
       : gmap string string)
    = <["style" := style]> (<["title" := title]> {["singer" := singer]}) /\
    tonas.Track.style
      (<["style" := "Martinete 1"]> (<["title" := "Title X"]> {["singer" := "Singer Y"]}))
    = Some style /\
    tonas.Track.title
      (<["style" := "Martinete 1"]> (<["title" := "Title X"]> {["singer" := "Singer Y"]}))
    = Some title /\
    tonas.Track.singer
      (<["style" := "Martinete 1"]> (<["title" := "Title X"]> {["singer" := "Singer Y"]}))
    = Some singer.
Proof.
  apply (metadata_entries_complete
           {[ "/data/tonas/TONAS-Metadata.txt" :=
                ["0000.wav" +:+ String str.TAB
                   ("Martinete 1" +:+ String str.TAB
                      ("Title X" +:+ String str.TAB "Singer Y"))] ]}
           "/data/tonas"
           {[ "0000" := <["style" := "Martinete 1"]>
                          (<["title" := "Title X"]> {["singer" := "Singer Y"]}) ]}
           "0000").
  - vm_compute. reflexivity.
  - vm_compute. reflexivity.
Defined.

(** ** Da-TACOS: more on track identifiers *)






(** ** Da-TACOS: more on the metadata *)

Lemma check_subsets_Ok (fs : gmap string (result json)) (data_home : string)
    (paths : list string) :
  for_each (da_tacos.Dataset.check_subset fs data_home) [] da_tacos.Dataset.subsets
  = Ok paths ->
  zip da_tacos.Dataset.subsets paths
  = (fun s => (s, da_tacos.Dataset.path_of_subset data_home s))
      <$> da_tacos.Dataset.subsets.
Proof.
  unfold da_tacos.Dataset.subsets. cbn [for_each].
  unfold da_tacos.Dataset.check_subset.
  destruct (os_path.exists_ fs (da_tacos.Dataset.path_of_subset data_home "benchmark"));
    cbn [negb mbind result_bind]; [| discriminate].
  destruct (os_path.exists_ fs
              (da_tacos.Dataset.path_of_subset data_home "coveranalysis"));
    cbn [negb mbind result_bind]; [| discriminate].
  by intros [= <-].
Qed.

Lemma metadata_as_loop (fs : gmap string (result json)) (data_home : string)
    (metadata_index : gmap string json) :
  da_tacos.Dataset._metadata fs data_home = Ok metadata_index ->
  for_each (da_tacos.Dataset.add_subset fs) ∅
    ((fun s => (s, da_tacos.Dataset.path_of_subset data_home s))
       <$> da_tacos.Dataset.subsets)
  = Ok metadata_index.
Proof.
  unfold da_tacos.Dataset._metadata.
  destruct (for_each _ [] _) as [paths |] eqn:Hpaths; cbn [mbind result_bind];
    [| discriminate].
  by rewrite (check_subsets_Ok _ _ _ Hpaths).
Qed.

(** What is filed under a key is the entry of a performance that the key
    names. *)
Lemma metadata_index_sound (fs : gmap string (result json)) (data_home : string)
    (metadata_index : gmap string json) (k : string) (v : json) :
  da_tacos.Dataset._metadata fs data_home = Ok metadata_index ->
  metadata_index !! k = Some v ->
  exists subset work_id performance_id,
    subset ∈ da_tacos.Dataset.subsets /\
    k = subset +:+ "#" +:+ work_id +:+ "#" +:+ performance_id /\
    entry_of fs data_home subset work_id performance_id = Ok v.
Proof.
  intros H%metadata_as_loop. revert k v.
  set (P := fun idx : gmap string json =>
              forall k v, idx !! k = Some v ->
              exists subset work_id performance_id,
                subset ∈ da_tacos.Dataset.subsets /\
                k = subset +:+ "#" +:+ work_id +:+ "#" +:+ performance_id /\
                entry_of fs data_home subset work_id performance_id = Ok v).
  change (P metadata_index).
  eapply (for_each_invariant P); [| | exact H].
  - intros idx [subset path] idx' Hin Hidx.
    apply list_elem_of_fmap in Hin as (s & [= -> ->] & Hs).
    unfold da_tacos.Dataset.add_subset.
    destruct (da_tacos.Dataset.json_load fs _) as [meta |] eqn:Hmeta;
      cbn [mbind result_bind]; [| discriminate].
    destruct (dict.keys meta) as [works |]; cbn [mbind result_bind]; [| discriminate].
    intros Hworks. eapply (for_each_invariant P); [| exact Hidx | exact Hworks].
    intros idx1 work_id idx1' _ Hidx1. unfold da_tacos.Dataset.add_work.
    destruct (_ ≫= dict.keys) as [perfs |]; cbn [mbind result_bind]; [| discriminate].
    intros Hperfs. eapply (for_each_invariant P); [| exact Hidx1 | exact Hperfs].
    intros idx2 performance_id idx2' _ Hidx2. unfold da_tacos.Dataset.add_performance.
    destruct (dict.getitem meta work_id) as [work |] eqn:Hwork;
      cbn [mbind result_bind]; [| discriminate].
    destruct (dict.getitem work performance_id) as [entry |] eqn:Hentry;
      cbn [mbind result_bind]; [| discriminate].
    intros [= <-] k v. rewrite lookup_insert. case_decide as Hk.
    + intros [= <-]. subst k. exists s, work_id, performance_id.
      split; [done |]. split; [done |].
      unfold entry_of. rewrite Hmeta. cbn [mbind result_bind].
      rewrite Hwork. cbn [mbind result_bind]. exact Hentry.
    + apply Hidx2.
  - intros k v. by rewrite lookup_empty.
Qed.

(** What a round of a loop brings about, and no later round undoes, holds
    when the loop is over. *)
Lemma for_each_reaches {S A} (Q : S -> Prop) (body : S -> A -> result S)
    (l : list A) (a : A) (s s' : S) :
  a ∈ l ->
  (forall s1 s2, body s1 a = Ok s2 -> Q s2) ->
  (forall s1 b s2, Q s1 -> body s1 b = Ok s2 -> Q s2) ->
  for_each body s l = Ok s' -> Q s'.
Proof.
  intros Hin Ha Hkeep. revert s. induction l as [| b l IH]; intros s.
  - by apply elem_of_nil in Hin.
  - cbn [for_each]. destruct (body s b) as [s1 |] eqn:Hb; cbn [mbind result_bind];
      [| discriminate].
    apply elem_of_cons in Hin as [<- | Hin].
    + apply (for_each_invariant Q); [| by apply (Ha s)].
      intros s2 c s3 _. apply Hkeep.
    + by apply IH.
Qed.

Lemma dict_lookup_keys (k : string) (items : list (string * json)) (v : json) :
  dict.lookup k items = Some v -> k ∈ items.*1.
Proof.
  induction items as [| [k' v'] items IH]; simpl; [discriminate |].
  destruct (String.eqb k' k) eqn:Hk.
  - apply String.eqb_eq in Hk as ->. intros _. by apply elem_of_cons; left.
  - intros H. apply elem_of_cons; right. by apply IH.
Qed.

Lemma dict_getitem_keys (d : json) (k : string) (v : json) :
  dict.getitem d k = Ok v -> exists ks, dict.keys d = Ok ks /\ k ∈ ks.
Proof.
  destruct d as [| | | | | items]; simpl; try discriminate.
  destruct (dict.lookup k items) eqn:Hk; simpl; [| discriminate].
  intros _. eexists. split; [reflexivity |]. by eapply dict_lookup_keys.
Qed.

(** The loops only add keys. *)
Lemma add_performance_keeps (k subset : string) (meta : json) (work_id : string)
    (idx1 : gmap string json) (performance_id : string) (idx2 : gmap string json) :
  is_Some (idx1 !! k) ->
  da_tacos.Dataset.add_performance subset meta work_id idx1 performance_id = Ok idx2 ->
  is_Some (idx2 !! k).
Proof.
  intros HQ. unfold da_tacos.Dataset.add_performance.
  destruct (dict.getitem meta work_id) as [work |]; cbn [mbind result_bind];
    [| discriminate].
  destruct (dict.getitem work performance_id); cbn [mbind result_bind];
    [| discriminate].
  intros [= <-]. apply lookup_insert_is_Some'. by right.
Qed.

Lemma add_work_keeps (k subset : string) (meta : json)
    (idx1 : gmap string json) (work_id : string) (idx2 : gmap string json) :
  is_Some (idx1 !! k) ->
  da_tacos.Dataset.add_work subset meta idx1 work_id = Ok idx2 ->
  is_Some (idx2 !! k).
Proof.
  intros HQ. unfold da_tacos.Dataset.add_work.
  destruct (_ ≫= dict.keys); cbn [mbind result_bind]; [| discriminate].
  apply (for_each_invariant (fun idx : gmap string json => is_Some (idx !! k)));
    [| done].
  intros ? ? ? _. apply add_performance_keeps.
Qed.

Lemma add_subset_keeps (fs : gmap string (result json)) (k : string)
    (idx1 : gmap string json) (item : string * string) (idx2 : gmap string json) :
  is_Some (idx1 !! k) ->
  da_tacos.Dataset.add_subset fs idx1 item = Ok idx2 ->
  is_Some (idx2 !! k).
Proof.
  intros HQ. destruct item as [subset path]. unfold da_tacos.Dataset.add_subset.
  destruct (da_tacos.Dataset.json_load fs path); cbn [mbind result_bind];
    [| discriminate].
  destruct (dict.keys _); cbn [mbind result_bind]; [| discriminate].
  apply (for_each_invariant (fun idx : gmap string json => is_Some (idx !! k)));
    [| done].
  intros ? ? ? _. apply add_work_keeps.
Qed.

(** Every performance of the files has a key in the index. *)
Lemma metadata_index_complete (fs : gmap string (result json)) (data_home : string)
    (metadata_index : gmap string json) (subset work_id performance_id : string)
    (v : json) :
  da_tacos.Dataset._metadata fs data_home = Ok metadata_index ->
  subset ∈ da_tacos.Dataset.subsets ->
  entry_of fs data_home subset work_id performance_id = Ok v ->
  is_Some (metadata_index !! (subset +:+ "#" +:+ work_id +:+ "#" +:+ performance_id)).
Proof.
  intros H%metadata_as_loop Hs Hentry.
  unfold entry_of in Hentry.
  destruct (da_tacos.Dataset.json_load fs _) as [meta |] eqn:Hmeta;
    cbn [mbind result_bind] in Hentry; [| discriminate].
  destruct (dict.getitem meta work_id) as [work |] eqn:Hwork;
    cbn [mbind result_bind] in Hentry; [| discriminate].
  destruct (dict_getitem_keys _ _ _ Hwork) as (works & Hworks & Hw).
  destruct (dict_getitem_keys _ _ _ Hentry) as (perfs & Hperfs & Hp).
  set (k := subset +:+ "#" +:+ work_id +:+ "#" +:+ performance_id).
  set (Q := fun idx : gmap string json => is_Some (idx !! k)).
  apply (for_each_reaches Q _ _
           (subset, da_tacos.Dataset.path_of_subset data_home subset) _ _
           (list_elem_of_fmap_2 _ _ _ Hs)) in H;
    [exact H | | intros ? ? ?; apply add_subset_keeps].
  intros idx1 idx2. unfold da_tacos.Dataset.add_subset.
  rewrite Hmeta. cbn [mbind result_bind]. rewrite Hworks. cbn [mbind result_bind].
  apply (for_each_reaches Q _ _ work_id _ _ Hw);
    [| intros ? ? ?; apply add_work_keeps].
  intros idx3 idx4. unfold da_tacos.Dataset.add_work.
  rewrite Hwork. cbn [mbind result_bind]. rewrite Hperfs. cbn [mbind result_bind].
  apply (for_each_reaches Q _ _ performance_id _ _ Hp);
    [| intros ? ? ?; apply add_performance_keeps].
  intros idx5 idx6. unfold da_tacos.Dataset.add_performance.
  rewrite Hwork. cbn [mbind result_bind]. rewrite Hentry. cbn [mbind result_bind].
  intros [= <-]. unfold Q, k. rewrite lookup_insert_eq. eauto.
Qed.

Lemma count_char_app (c : ascii) (a b : string) :
  count_char c (a +:+ b) = count_char c a + count_char c b.
Proof.
  induction a as [| x a IH]; [reflexivity |].
  rewrite string_app_cons. simpl. rewrite IH. lia.
Qed.

Lemma count_char_none (c : ascii) (s : string) :
  str.contains_char c s = false <-> count_char c s = 0.
Proof.
  induction s as [| x s IH]; simpl; [done |].
  destruct (Ascii.eqb x c); simpl; [split; [discriminate | lia] | exact IH].
Qed.

(** Parts without a "#" can be read back from the identifier built from
    them. *)
Lemma track_id_inj (s w p s' w' p' : string) :
  str.contains_char "#" s = false -> str.contains_char "#" w = false ->
  str.contains_char "#" p = false -> str.contains_char "#" s' = false ->
  s +:+ "#" +:+ w +:+ "#" +:+ p = s' +:+ "#" +:+ w' +:+ "#" +:+ p' ->
  s = s' /\ w = w' /\ p = p'.
Proof.
  intros Hs Hw Hp Hs' Heq.
  pose proof (f_equal (count_char "#") Heq) as Hcount.
  rewrite !count_char_app in Hcount.
  apply count_char_none in Hs, Hw, Hp, Hs'. simpl in Hcount.
  assert (count_char "#" w' = 0 /\ count_char "#" p' = 0) as [Hw' Hp'] by lia.
  apply count_char_none in Hs, Hw, Hp, Hs', Hw', Hp'.
  pose proof (f_equal (str.split "#") Heq) as Hsplit.
  change (s +:+ "#" +:+ w +:+ "#" +:+ p)
    with (s +:+ String "#" (w +:+ String "#" p)) in Hsplit.
  change (s' +:+ "#" +:+ w' +:+ "#" +:+ p')
    with (s' +:+ String "#" (w' +:+ String "#" p')) in Hsplit.
  rewrite !split_app_sep, !split_no_sep in Hsplit by done.
  by injection Hsplit.
Qed.

Lemma subsets_no_hash (s : string) :
  s ∈ da_tacos.Dataset.subsets -> str.contains_char "#" s = false.
Proof.
  unfold da_tacos.Dataset.subsets.
  intros [-> | [-> | []%elem_of_nil]%elem_of_cons]%elem_of_cons; reflexivity.
Qed.

(** X16. In the index that [Dataset._metadata] returns, the entry of a
    performance of the files is under subset # work # performance, when the
    ids of the work and of the performance hold no "#". *)
Theorem metadata_index_lookup (fs : gmap string (result json)) (data_home : string)
    (metadata_index : gmap string json) (subset work_id performance_id : string)
    (entry : json) :
  da_tacos.Dataset._metadata fs data_home = Ok metadata_index ->
  subset ∈ da_tacos.Dataset.subsets ->
  entry_of fs data_home subset work_id performance_id = Ok entry ->
  str.contains_char "#" work_id = false ->
  str.contains_char "#" performance_id = false ->
  metadata_index !! (subset +:+ "#" +:+ work_id +:+ "#" +:+ performance_id)
  = Some entry.
Proof.
  intros H Hs Hentry Hw Hp.
  destruct (metadata_index_complete _ _ _ _ _ _ _ H Hs Hentry) as [v Hv].
  rewrite Hv. f_equal.
  destruct (metadata_index_sound _ _ _ _ _ H Hv) as (s' & w' & p' & Hs' & Hk & Hv').
  apply track_id_inj in Hk as (<- & <- & <-); auto using subsets_no_hash.
  congruence.
Qed.

Lemma metadata_index_lookup_witness :
  ({[ "benchmark#W_14#P_22" := JObj [("instrumental", JStr "No")] ]}
     : gmap string json) !! ("benchmark" +:+ "#" +:+ "W_14" +:+ "#" +:+ "P_22")
  = Some (JObj [("instrumental", JStr "No")]).
Proof.
  apply (metadata_index_lookup
           {[ "/data/da-tacos_metadata/da-tacos_benchmark_subset_metadata.json"
                := Ok (JObj [("W_14", JObj [("P_22", JObj [("instrumental", JStr "No")])])]);
              "/data/da-tacos_metadata/da-tacos_coveranalysis_subset_metadata.json"
                := Ok (JObj []) ]}
           "/data").
  - vm_compute. reflexivity.
  - apply elem_of_cons; left. reflexivity.
  - vm_compute. reflexivity.
  - reflexivity.
  - reflexivity.
Defined.

Lemma for_each_total {S A} (body : S -> A -> result S) (l : list A) (s : S) :
  (forall s a, a ∈ l -> exists s', body s a = Ok s') ->
  exists s', for_each body s l = Ok s'.
Proof.
  revert s. induction l as [| a l IH]; intros s Hbody; simpl; [eauto |].
  destruct (Hbody s a) as [s1 ->]; [by apply elem_of_cons; left |].
  cbn [mbind result_bind]. apply IH.
  intros s2 b Hb. apply Hbody. by apply elem_of_cons; right.
Qed.

Lemma dict_keys_lookup (k : string) (items : list (string * json)) :
  k ∈ items.*1 -> exists v, dict.lookup k items = Some v /\ (k, v) ∈ items.
Proof.
  induction items as [| [k' v'] items IH]; simpl; [by intros ?%elem_of_nil |].
  destruct (String.eqb k' k) eqn:Hk.
  - apply String.eqb_eq in Hk as ->. intros _. exists v'.
    split; [reflexivity |]. by apply elem_of_cons; left.
  - intros [-> | Hin]%elem_of_cons; [by rewrite String.eqb_refl in Hk |].
    destruct (IH Hin) as (v & Hv & Hkv). exists v.
    split; [exact Hv |]. by apply elem_of_cons; right.
Qed.

(** X17. When the metadata files of both subsets are there and hold works of
    performances, [Dataset._metadata] returns an index. *)
Theorem metadata_index_total (fs : gmap string (result json)) (data_home : string) :
  (forall subset, subset ∈ da_tacos.Dataset.subsets ->
     exists meta,
       fs !! da_tacos.Dataset.path_of_subset data_home subset = Some (Ok meta) /\
       works_of_performances meta) ->
  exists metadata_index,
    da_tacos.Dataset._metadata fs data_home = Ok metadata_index.
Proof.
  intros Hfs. unfold da_tacos.Dataset._metadata.
  assert (for_each (da_tacos.Dataset.check_subset fs data_home) []
            da_tacos.Dataset.subsets
          = Ok (da_tacos.Dataset.path_of_subset data_home <$> da_tacos.Dataset.subsets))
    as ->.
  { unfold da_tacos.Dataset.subsets in *. cbn [for_each].
    unfold da_tacos.Dataset.check_subset, os_path.exists_.
    destruct (Hfs "benchmark") as (mb & -> & _); [by apply elem_of_cons; left |].
    destruct (Hfs "coveranalysis") as (mc & -> & _);
      [by apply elem_of_cons; right; apply elem_of_cons; left |].
    rewrite !bool_decide_eq_true_2 by eauto. reflexivity. }
  cbn [mbind result_bind]. apply for_each_total.
  intros idx [subset path] Hin.
  assert (subset ∈ da_tacos.Dataset.subsets /\
          path = da_tacos.Dataset.path_of_subset data_home subset) as [Hs ->].
  { unfold da_tacos.Dataset.subsets in *. simpl in Hin.
    apply elem_of_cons in Hin as [[= -> ->] | Hin].
    - split; [by apply elem_of_cons; left | reflexivity].
    - apply elem_of_cons in Hin as [[= -> ->] | Hin]; [| by apply elem_of_nil in Hin].
      split; [by apply elem_of_cons; right; apply elem_of_cons; left | reflexivity]. }
  destruct (Hfs subset Hs) as (meta & Hmeta & works & -> & Hworks).
  unfold da_tacos.Dataset.add_subset, da_tacos.Dataset.json_load.
  rewrite Hmeta. cbn [mbind result_bind dict.keys].
  apply for_each_total. intros idx1 work_id Hw.
  destruct (dict_keys_lookup _ _ Hw) as (work & Hwork & Hin_work).
  apply (proj1 (Forall_forall _ _) Hworks) in Hin_work as [perfs Hperfs].
  simpl in Hperfs. subst work.
  unfold da_tacos.Dataset.add_work. cbn [dict.getitem]. rewrite Hwork.
  cbn [of_option mbind result_bind dict.keys].
  apply for_each_total. intros idx2 performance_id Hp.
  destruct (dict_keys_lookup _ _ Hp) as (entry & Hentry & _).
  unfold da_tacos.Dataset.add_performance. cbn [dict.getitem]. rewrite Hwork.
  cbn [of_option mbind result_bind dict.getitem]. rewrite Hentry.
  cbn [of_option mbind result_bind]. eauto.
Qed.

Lemma metadata_index_total_witness :
  exists metadata_index,
    da_tacos.Dataset._metadata
      {[ "/data/da-tacos_metadata/da-tacos_benchmark_subset_metadata.json"
           := Ok (JObj [("W_14", JObj [("P_22", JObj [("instrumental", JStr "No")])])]);
         "/data/da-tacos_metadata/da-tacos_coveranalysis_subset_metadata.json"
           := Ok (JObj []) ]}
      "/data" = Ok metadata_index.
Proof.
  apply metadata_index_total. intros subset Hin.
  unfold da_tacos.Dataset.subsets in Hin.
  apply elem_of_cons in Hin as [-> | Hin].
  - eexists. split; [vm_compute; reflexivity |].
    eexists. split; [reflexivity |]. repeat constructor. simpl. eauto.
  - apply elem_of_cons in Hin as [-> | Hin]; [| by apply elem_of_nil in Hin].
    eexists. split; [vm_compute; reflexivity |].
    eexists. split; [reflexivity |]. constructor.
Defined.

(** ** Da-TACOS: the views of the index *)

Lemma startswith_app (p s : string) : str.startswith p (p +:+ s) = true.
Proof.
  induction p as [| c p IH]; [by destruct s |].
  rewrite string_app_cons. simpl. by rewrite Ascii.eqb_refl, IH.
Qed.

Lemma contains_prefix (p s : string) : contains p (p +:+ s) = true.
Proof.
  destruct (p +:+ s) eqn:E; simpl; rewrite <- E, startswith_app; reflexivity.
Qed.

(** X19. [filter_index] keeps the tracks whose identifier holds the search key,
    with what the index holds for them, and all of them under an empty key;
    every track whose identifier has the form subset # work # performance
    is in the view of the benchmark subset or in that of the cover analysis
    subset. *)
Theorem filter_index_views {V : Type} (tracks : gmap string V) :
  (forall search_key track_id v,
     da_tacos_index.filter_index tracks search_key !! track_id = Some v <->
     tracks !! track_id = Some v /\ contains search_key track_id = true) /\
  da_tacos_index.filter_index tracks "" = tracks /\
  (forall track_id v,
     track_id_form track_id -> tracks !! track_id = Some v ->
     da_tacos_index.benchmark_tracks tracks !! track_id = Some v \/
     da_tacos_index.coveranalysis_tracks tracks !! track_id = Some v).
Proof.
  assert (Hfilter : forall search_key track_id v,
     da_tacos_index.filter_index tracks search_key !! track_id = Some v <->
     tracks !! track_id = Some v /\ contains search_key track_id = true).
  { intros search_key track_id v. unfold da_tacos_index.filter_index.
    by rewrite map_lookup_filter_Some. }
  split; [exact Hfilter | split].
  - apply map_eq. intros track_id. apply option_eq. intros v.
    rewrite Hfilter. split; [by intros [? _] | intros H; split; [exact H |]].
    by destruct track_id.
  - intros track_id v (subset & work_id & performance_id & Hs & ->) Hv.
    unfold da_tacos_index.benchmark_tracks, da_tacos_index.coveranalysis_tracks.
    rewrite !Hfilter. unfold da_tacos.Dataset.subsets in Hs.
    apply elem_of_cons in Hs as [-> | Hs].
    + left. split; [exact Hv |].
      apply (contains_prefix "benchmark#" (work_id +:+ "#" +:+ performance_id)).
    + apply elem_of_cons in Hs as [-> | Hs]; [| by apply elem_of_nil in Hs].
      right. split; [exact Hv |].
      apply (contains_prefix "coveranalysis#" (work_id +:+ "#" +:+ performance_id)).
Qed.

Lemma filter_index_views_witness :
  da_tacos_index.benchmark_tracks
    ({[ "benchmark#W_14#P_22" := 1; "coveranalysis#W_2#P_3" := 2 ]} : gmap string nat)
    !! "benchmark#W_14#P_22" = Some 1 \/
  da_tacos_index.coveranalysis_tracks
    ({[ "benchmark#W_14#P_22" := 1; "coveranalysis#W_2#P_3" := 2 ]} : gmap string nat)
    !! "benchmark#W_14#P_22" = Some 1.
Proof.
  apply (proj2 (proj2 (filter_index_views _))).
  - exists "benchmark", "W_14", "P_22". split; [| reflexivity].
    apply elem_of_cons; left. reflexivity.
  - vm_compute. reflexivity.
Defined.

(** ** Da-TACOS: how the loaders fail *)

Lemma reads_key_getitem {V : Type} (key : string) :
  reads_key (V := V)
    (fun fs path => blob ← da_tacos.dd_io_load fs path; da_tacos.blob_getitem blob key)
    key.
Proof.
  intros fs path. unfold da_tacos.dd_io_load, da_tacos.blob_getitem.
  destruct (fs !! path) as [blob |]; cbn [of_option mbind result_bind].
  - destruct (blob !! key) as [x |] eqn:Hkey; cbn [of_option].
    + split; [| split].
      * intros v. split; [intros [= <-]; eauto | intros (b & [= <-] & Hb); congruence].
      * split; [discriminate | intros (b & [= <-] & Hb); congruence].
      * split; discriminate.
    + split; [| split].
      * intros v. split; [discriminate | intros (b & [= <-] & Hb); congruence].
      * split; [eauto | done].
      * split; discriminate.
  - split; [| split].
    + intros v. split; [discriminate | intros (b & [=] & _)].
    + split; [discriminate | intros (b & [=] & _)].
    + done.
Qed.

(** X20. Each of the seven loaders returns the value under its key when the
    file holds it, raises [KeyError] when the file is there without the
    key, as the file of another feature is, and [FileNotFoundError] when
    there is no file. *)
Theorem loaders_outcomes {V : Type} :
  reads_key (V := V) da_tacos.load_cens "chroma_cens" /\
  reads_key (V := V) da_tacos.load_crema "crema" /\
  reads_key (V := V) da_tacos.load_hpcp "hpcp" /\
  reads_key (V := V) da_tacos.load_key "key_extractor" /\
  reads_key (V := V) da_tacos.load_madmom "madmom_features" /\
  reads_key (V := V) da_tacos.load_mfcc "mfcc_htk" /\
  reads_key (V := V) da_tacos.load_tags "tags".
Proof. repeat split; apply reads_key_getitem. Qed.

Lemma loaders_outcomes_witness :
  da_tacos.load_cens
    ({[ "P_1.h5" := {[ "hpcp" := [2]; "label" := [7]; "track_id" := [8] ]} ]}
       : gmap string (gmap string (list nat)))
    "P_1.h5" = Raise KeyError.
Proof.
  apply (proj1 loaders_outcomes). eexists. split; vm_compute; reflexivity.
Defined.

(** ** Da-TACOS: tracks made from the keys of the index *)



(** ** TONAS: what a loaded notes file always holds *)

Local Open Scope R_scope.





Local Close Scope R_scope.




